(** * A shallow embedding of the coverage reporter [.gemini/parse_coverage.py]
    and of the exclusion filter of
    [reference-apps/standalone-projects/export-standalone-project.py].

    The reporter walks an [xml.etree.ElementTree] tree, prints a line per
    under-covered class and lets every Python exception escape.  It is modelled
    in a writer/exception monad: a run yields the lines printed so far and,
    possibly, the exception that stopped it (lines printed before an uncaught
    exception still reach standard output; printing itself is taken to
    succeed).

    Strings are lists of 8-bit characters, read as the Unicode code points
    U+0000 to U+00FF: attribute values outside that range are not modelled. *)

From Stdlib Require Import Bool List ZArith String Ascii Lia.
Import ListNotations.
Open Scope Z_scope.
Open Scope string_scope.
Set Warnings "-register-all".

(** ** Python exceptions that the reporter can raise *)

Inductive py_error :=
| FileNotFoundError      (* [ET.parse] on an absent file *)
| OSError                (* any other failure to open or read the file:
                            [PermissionError], [IsADirectoryError], ... *)
| ParseError             (* [ET.parse] on a document that is not well formed *)
| AttributeError         (* [None.startswith] *)
| TypeError              (* [int(None)] *)
| ValueError             (* [int(s)] for a string that is not an integer literal *)
| ZeroDivisionError      (* [a / 0] *)
| OverflowError.         (* [a / b] on [int]s whose quotient is too large for a float *)

(** ** Writer/exception monad: printed lines, then the outcome *)

Definition M (A : Type) : Type := list string * (py_error + A).

Definition ret {A} (a : A) : M A := ([], inr a).
Definition raise {A} (e : py_error) : M A := ([], inl e).
Definition emit (l : string) : M unit := ([l], inr tt).

Definition bind {A B} (m : M A) (k : A -> M B) : M B :=
  match m with
  | (w, inl e) => (w, inl e)
  | (w, inr a) => let (w', r) := k a in (app w w', r)
  end.

Notation "x <- m ;; k" := (bind m (fun x => k))
  (at level 61, m at next level, right associativity).
Notation "m ;;; k" := (bind m (fun _ : unit => k))
  (at level 61, right associativity).

(** A Python [for x in xs: body(x)] loop. *)
Fixpoint for_ {A} (xs : list A) (body : A -> M unit) : M unit :=
  match xs with
  | [] => ret tt
  | x :: xs' => body x ;;; for_ xs' body
  end.

(** Printed lines and raised exception of a run. *)
Definition out {A} (m : M A) : list string := fst m.
Definition err {A} (m : M A) : option py_error :=
  match snd m with inl e => Some e | inr _ => None end.

(** ** ElementTree elements (text and tail are never read by the reporter) *)

Inductive element :=
| Element (tag : string) (attrib : list (string * string)) (children : list element).

Definition tag (e : element) : string := let 'Element t _ _ := e in t.
Definition attrib (e : element) : list (string * string) :=
  let 'Element _ a _ := e in a.
Definition children (e : element) : list element :=
  let 'Element _ _ c := e in c.

(** [elem.get(key)]: [None] when the attribute is absent. *)
Definition get (e : element) (key : string) : option string :=
  match find (fun kv => String.eqb (fst kv) key) (attrib e) with
  | Some (_, v) => Some v
  | None => None
  end.

(** [elem.findall('t')]: the children with tag [t], in document order. *)
Definition findall (t : string) (e : element) : list element :=
  filter (fun c => String.eqb (tag c) t) (children e).

(** [elem.find('counter[@type="LINE"]')]: the first such child, if any. *)
Definition find_line_counter (e : element) : option element :=
  find (fun c => String.eqb (tag c) "counter" &&
                 match get c "type" with
                 | Some v => String.eqb v "LINE"
                 | None => false
                 end) (children e).

(** ** Python's [int(str)] (base 10)

    Surrounding whitespace is stripped ([str.isspace] on U+0000 to U+00FF:
    the ASCII whitespace, U+001C to U+001F, U+0085 and U+00A0), one optional
    sign is accepted, and the digits may be separated by single underscores
    ([int(" +1_000 ")] is 1000); no other code point of that range is a
    decimal digit.  As in CPython 3.11 and later, a literal of more than 4300
    digits ([sys.int_info.default_max_str_digits]) raises [ValueError]. *)

Definition is_py_space (c : ascii) : bool :=
  existsb (Nat.eqb (nat_of_ascii c)) [32; 9; 10; 11; 12; 13; 28; 29; 30; 31; 133; 160]%nat.

Fixpoint strip_left (s : list ascii) : list ascii :=
  match s with
  | c :: s' => if is_py_space c then strip_left s' else s
  | [] => []
  end.

Definition strip (s : list ascii) : list ascii :=
  rev (strip_left (rev (strip_left s))).

Definition digit_value (c : ascii) : option Z :=
  let n := nat_of_ascii c in
  if (48 <=? n)%nat && (n <=? 57)%nat then Some (Z.of_nat (n - 48)) else None.

(** Digits with single underscores between them; [acc] is the value so far. *)
Fixpoint digits_value (acc : Z) (s : list ascii) : option Z :=
  match s with
  | [] => Some acc
  | c :: s' =>
      match digit_value c with
      | Some d => digits_value (10 * acc + d) s'
      | None =>
          if Ascii.eqb c "_" then
            match s' with
            | c' :: s'' =>
                match digit_value c' with
                | Some d => digits_value (10 * acc + d) s''
                | None => None
                end
            | [] => None
            end
          else None
      end
  end.

Definition max_str_digits : nat := 4300.

(** The number of digits of a literal (underscores are not counted). *)
Definition digit_count (s : list ascii) : nat :=
  List.length (filter (fun c => match digit_value c with Some _ => true | None => false end) s).

Definition unsigned_value (s : list ascii) : option Z :=
  if (max_str_digits <? digit_count s)%nat then None
  else
    match s with
    | c :: s' =>
        match digit_value c with
        | Some d => digits_value d s'
        | None => None
        end
    | [] => None
    end.

Definition py_int (str : string) : option Z :=
  match strip (list_ascii_of_string str) with
  | c :: s =>
      if Ascii.eqb c "-" then option_map Z.opp (unsigned_value s)
      else if Ascii.eqb c "+" then unsigned_value s
      else unsigned_value (c :: s)
  | [] => None
  end.

(** [int(line_counter.get(key))]. *)
Definition int_of_attr (v : option string) : M Z :=
  match v with
  | None => raise TypeError
  | Some s => match py_int s with
              | Some z => ret z
              | None => raise ValueError
              end
  end.

(** ** Binary64 floats

    A finite double is its sign bit and a magnitude [m * 2^e] ([m >= 0]);
    [Fin true 0 _] is [-0.0].  NaN never arises in the reporter. *)

Inductive pyfloat :=
| Fin (neg : bool) (m e : Z)
| Inf (neg : bool).

(** [n / d] rounded to the nearest integer, ties to even ([n >= 0], [d > 0]). *)
Definition rhe_div (n d : Z) : Z :=
  let q := n / d in
  let r := n mod d in
  match Z.compare (2 * r) d with
  | Lt => q
  | Gt => q + 1
  | Eq => if Z.even q then q else q + 1
  end.

(** [(a / b) / 2^e] as a fraction [n / d]. *)
Definition scale_pow2 (a b e : Z) : Z * Z :=
  if Z.leb 0 e then (a, b * 2 ^ e) else (a * 2 ^ (- e), b).

(** [m * 2^e] as a fraction [n / d]. *)
Definition dyadic (m e : Z) : Z * Z :=
  if Z.leb 0 e then (m * 2 ^ e, 1) else (m, 2 ^ (- e)).

(** [floor (log2 (a / b))] for [a, b > 0]: the integer part of [a * 2^s / b],
    with [2^s > b], is at least 1. *)
Definition ilog2_frac (a b : Z) : Z :=
  let s := Z.log2 b + 1 in Z.log2 (a * 2 ^ s / b) - s.

(** The exponent of the last significand bit: 53 bits of precision, down to
    the subnormal exponent -1074. *)
Definition binary64_exponent (a b : Z) : Z := Z.max (ilog2_frac a b - 52) (-1074).

(** [a / b] ([a, b > 0]) rounded to the nearest double, ties to even; [None]
    when the result reaches [2^1024] (overflow). *)
Definition round_binary64 (a b : Z) : option (Z * Z) :=
  let e := binary64_exponent a b in
  let '(n, d) := scale_pow2 a b e in
  let m := rhe_div n d in
  let '(vn, vd) := dyadic m e in
  if Z.leb (2 ^ 1024 * vd) vn then None else Some (m, e).

(** Python's [a / b] on two [int]s ([long_true_divide]): the correctly rounded
    quotient; [ZeroDivisionError] for [b = 0], [OverflowError] when the
    quotient rounds beyond the largest double; a zero result takes the sign
    [(a < 0) xor (b < 0)]. *)
Definition py_truediv (a b : Z) : M pyfloat :=
  if Z.eqb b 0 then raise ZeroDivisionError
  else
    let neg := xorb (Z.ltb a 0) (Z.ltb b 0) in
    if Z.eqb a 0 then ret (Fin neg 0 0)
    else match round_binary64 (Z.abs a) (Z.abs b) with
         | Some (m, e) => ret (Fin neg m e)
         | None => raise OverflowError
         end.

(** [x * c] for a float [x] and a positive [int] [c] below [2^53] (converted to
    a double exactly): the product rounded to the nearest double; float
    multiplication overflows to an infinity instead of raising. *)
Definition float_mul_int (x : pyfloat) (c : Z) : pyfloat :=
  match x with
  | Inf neg => Inf neg
  | Fin neg m e =>
      if Z.eqb m 0 then Fin neg 0 0
      else let '(n, d) := dyadic (m * c) e in
           match round_binary64 n d with
           | Some (m', e') => Fin neg m' e'
           | None => Inf neg
           end
  end.

(** The exact comparison of a float with an [int], as Python does it. *)
Definition float_compare_int (x : pyfloat) (c : Z) : comparison :=
  match x with
  | Inf neg => if neg then Lt else Gt
  | Fin neg m e =>
      let '(n, d) := dyadic m e in
      Z.compare (if neg then - n else n) (c * d)
  end.

(** [x < c]. *)
Definition float_lt_int (x : pyfloat) (c : Z) : bool :=
  match float_compare_int x c with Lt => true | _ => false end.

(** Decimal digits of a non-negative integer; [fuel] bounds the number of
    recursive calls and [dec_string] gives enough of it. *)
Definition digit_char (d : Z) : ascii := ascii_of_nat (48 + Z.to_nat d).

Fixpoint dec_digits (fuel : nat) (n : Z) : string :=
  let d := String (digit_char (n mod 10)) "" in
  if Z.eqb (n / 10) 0 then d
  else match fuel with
       | O => d
       | S f => dec_digits f (n / 10) ++ d
       end.

Definition dec_string (n : Z) : string := dec_digits (S (Z.to_nat (Z.log2 n))) n.

(** [f'{x:.2f}']: the sign bit, then the exact value of the double rounded to
    two decimals, ties to even ([f'{0.125:.2f}'] is ["0.12"], [f'{-0.0:.2f}']
    is ["-0.00"]); the infinities are written ["inf"] and ["-inf"]. *)
Definition format_2f (x : pyfloat) : string :=
  match x with
  | Inf neg => (if neg then "-" else "") ++ "inf"
  | Fin neg m e =>
      let '(n, d) := dyadic m e in
      let r := rhe_div (100 * n) d in
      (if neg then "-" else "") ++ dec_string (r / 100) ++ "."
        ++ String (digit_char ((r mod 100) / 10))
                  (String (digit_char ((r mod 100) mod 10)) "")
  end.

(** [f'{v}'] of an attribute value that may be [None]. *)
Definition py_str (v : option string) : string :=
  match v with Some s => s | None => "None" end.

(** ** [parse_jacoco_report] *)

Definition package_prefix : string := "com/android/designcompose".

(** [s.startswith(p)]. *)
Definition startswith (s p : string) : bool := String.prefix p s.

(** Body of the inner loop [for class_elem in package.findall('class')]. *)
Definition class_body (package_name : string) (class_elem : element) : M unit :=
  let source_filename := get class_elem "sourcefilename" in
  match find_line_counter class_elem with
  | None => ret tt
  | Some line_counter =>
      missed_lines <- int_of_attr (get line_counter "missed") ;;
      covered_lines <- int_of_attr (get line_counter "covered") ;;
      let total_lines := (missed_lines + covered_lines)%Z in
      if Z.ltb 0 total_lines then
        ratio <- py_truediv covered_lines total_lines ;;
        let coverage := float_mul_int ratio 100 in
        if float_lt_int coverage 50 then
          emit (package_name ++ "/" ++ py_str source_filename ++ ": "
                ++ format_2f coverage ++ "%")
        else ret tt
      else ret tt
  end.

(** Body of the outer loop [for package in root.findall('package')]. *)
Definition package_body (package : element) : M unit :=
  match get package "name" with
  | None => raise AttributeError
  | Some package_name =>
      if negb (startswith package_name package_prefix) then ret tt
      else for_ (findall "class" package) (class_body package_name)
  end.

(** The two loops, on the root of the parsed tree. *)
Definition report (root : element) : M unit :=
  for_ (findall "package" root) package_body.



(** ** The exporter: [shutil.copytree(..., ignore=shutil.ignore_patterns(...))]

    [fnmatch] translates a pattern to an anchored regular expression in which
    [*] matches any string and [?] any one character (names are compared as
    they are on POSIX, where [os.path.normcase] is the identity).  Bracket
    sets are not modelled: none of the four patterns uses one. *)

Inductive glob_tok := Star | AnyChar | Lit (c : ascii).

Definition glob_of_char (c : ascii) : glob_tok :=
  if Ascii.eqb c "*" then Star else if Ascii.eqb c "?" then AnyChar else Lit c.

Definition compile_glob (pat : string) : list glob_tok :=
  map glob_of_char (list_ascii_of_string pat).

(** All suffixes of a name, longest first (the candidates after a [*]). *)
Fixpoint suffixes (s : list ascii) : list (list ascii) :=
  match s with
  | [] => [[]]
  | _ :: s' => s :: suffixes s'
  end.

Fixpoint glob_match (p : list glob_tok) (s : list ascii) : bool :=
  match p with
  | [] => match s with [] => true | _ => false end
  | Star :: p' => existsb (glob_match p') (suffixes s)
  | AnyChar :: p' => match s with [] => false | _ :: s' => glob_match p' s' end
  | Lit c :: p' =>
      match s with
      | [] => false
      | c' :: s' => Ascii.eqb c c' && glob_match p' s'
      end
  end.

(** [fnmatch.fnmatch(name, pat)]. *)
Definition fnmatch (name pat : string) : bool :=
  glob_match (compile_glob pat) (list_ascii_of_string name).

(** [shutil.ignore_patterns(patterns...)(path, names)]: the names matched by
    some pattern. *)
Definition ignore_patterns (patterns : list string) (names : list string)
    : list string :=
  filter (fun n => existsb (fnmatch n) patterns) names.

Definition export_patterns : list string := [".*"; "build"; "local.properties"; "bin"].

(** A directory entry; symbolic links are already dereferenced
    ([symlinks=False]), so a tree holds only files and directories. *)
Inductive entry :=
| File (name : string)
| Dir (name : string) (contents : list entry).

Definition entry_name (e : entry) : string :=
  match e with File n => n | Dir n _ => n end.

(** The entries of one directory that [copytree] copies: those whose name is
    not among the [ignored_names] the ignore function returned for it. *)
Fixpoint copy_kept (copy : entry -> entry) (ignored_names : list string)
    (es : list entry) : list entry :=
  match es with
  | [] => []
  | e :: es' =>
      if existsb (String.eqb (entry_name e)) ignored_names
      then copy_kept copy ignored_names es'
      else copy e :: copy_kept copy ignored_names es'
  end.

(** [shutil.copytree] on one entry: at every directory the ignore function
    gets the names of its entries, and the entries it returns are neither
    copied nor descended into. *)
Fixpoint copy_entry (ignore : list string -> list string) (e : entry) : entry :=
  match e with
  | File n => File n
  | Dir n cs => Dir n (copy_kept (copy_entry ignore) (ignore (map entry_name cs)) cs)
  end.

(** [shutil.copytree(src=d, dst=..., symlinks=False, ignore=ignore)] on the
    contents [es] of [d]: the contents of the destination directory. *)
Definition copytree (ignore : list string -> list string) (es : list entry)
    : list entry :=
  copy_kept (copy_entry ignore) (ignore (map entry_name es)) es.

(** The script: a copy of [project_dir] into the staging directory, then a
    copy of the staging directory into the output directory, both with
    [ignore_patterns('.*', 'build', 'local.properties', 'bin')]. *)
Definition export_project (project_contents : list entry) : list entry :=
  let ignore := ignore_patterns export_patterns in
  let initial_copy := copytree ignore project_contents in
  copytree ignore initial_copy.

(** *** The script on a file system

    A file system is an association list from directory paths to their
    contents (paths are compared as strings, and a path is looked up only
    among the keys).  [copytree] first lists [src]
    ([os.scandir] raises [FileNotFoundError] when it is absent), then creates
    [dst] with [os.makedirs(dst, exist_ok=False)], which raises
    [FileExistsError] when [dst] already exists. *)

Inductive copytree_error :=
| SourceNotFound      (* FileNotFoundError from os.scandir(src) *)
| DestinationExists.  (* FileExistsError from os.makedirs(dst) *)

Definition fs_state : Type := list (string * list entry).

Definition fs_lookup (fs : fs_state) (path : string) : option (list entry) :=
  option_map snd (find (fun kv => String.eqb (fst kv) path) fs).

Definition fs_exists (fs : fs_state) (path : string) : bool :=
  existsb (fun kv => String.eqb (fst kv) path) fs.

Definition copytree_fs (ignore : list string -> list string) (fs : fs_state)
    (src dst : string) : copytree_error + fs_state :=
  match fs_lookup fs src with
  | None => inl SourceNotFound
  | Some es =>
      if fs_exists fs dst then inl DestinationExists
      else inr ((dst, copytree ignore es) :: fs)
  end.

(** The [__main__] block: [staging] is [<temporary directory>/initial], inside
    the directory [tempfile.TemporaryDirectory()] has just created. *)
Definition export_script (fs : fs_state) (project_dir out_dir staging : string)
    : copytree_error + fs_state :=
  let ignore := ignore_patterns export_patterns in
  match copytree_fs ignore fs project_dir staging with
  | inl e => inl e
  | inr fs1 => copytree_fs ignore fs1 staging out_dir
  end.

(** ** Specification-side notions used by the statements *)

(** The lines each class of a matching package prints, in document order:
    what the two loops print when nothing stops them. *)
Definition document_lines (root : element) : list string :=
  flat_map (fun package =>
              match get package "name" with
              | Some n =>
                  if startswith n package_prefix
                  then flat_map (fun c => out (class_body n c)) (findall "class" package)
                  else []
              | None => []
              end) (findall "package" root).

(** The quotient [a / b] beyond which Python's [int] division overflows:
    [2^1024 - 2^970], half an ulp above the largest double. *)
Definition overflow_bound : Z := 2 ^ 1024 - 2 ^ 970.



Definition is_digit (c : ascii) : bool :=
  (48 <=? nat_of_ascii c)%nat && (nat_of_ascii c <=? 57)%nat.

Fixpoint all_digits (s : string) : bool :=
  match s with
  | EmptyString => true
  | String c s' => is_digit c && all_digits s'
  end.

(** The names the exporter leaves out, as the spec lists them. *)
Definition excluded_name (n : string) : bool :=
  String.prefix "." n || String.eqb n "build"
  || String.eqb n "local.properties" || String.eqb n "bin".

(** The spec's reading of the exporter: the source tree with every entry whose
    name is excluded removed, at every level. *)
Fixpoint prune_kept (f : entry -> entry) (es : list entry) : list entry :=
  match es with
  | [] => []
  | e :: es' =>
      if excluded_name (entry_name e) then prune_kept f es' else f e :: prune_kept f es'
  end.

Fixpoint prune (e : entry) : entry :=
  match e with
  | File n => File n
  | Dir n cs => Dir n (prune_kept prune cs)
  end.

Definition prune_tree (es : list entry) : list entry := prune_kept prune es.

(** Paths (lists of names from the top) of all entries of a tree. *)
Fixpoint entry_paths (e : entry) : list (list string) :=
  match e with
  | File n => [[n]]
  | Dir n cs => [n] :: map (cons n) (flat_map entry_paths cs)
  end.

Definition tree_paths (es : list entry) : list (list string) :=
  flat_map entry_paths es.

(** ** Monad and loop lemmas *)

Lemma bind_ret_l {A B} (a : A) (k : A -> M B) : bind (ret a) k = k a.
Proof. unfold bind, ret. destruct (k a); reflexivity. Qed.

Lemma bind_assoc {A B C} (m : M A) (f : A -> M B) (g : B -> M C) :
  bind (bind m f) g = bind m (fun x => bind (f x) g).
Proof.
  destruct m as [w [e | a]]; [reflexivity |]. simpl.
  destruct (f a) as [w1 [e1 | b]]; simpl; [reflexivity |].
  destruct (g b) as [w2 r]. rewrite app_assoc. reflexivity.
Qed.

Lemma for_app {A} (xs ys : list A) (body : A -> M unit) :
  for_ (xs ++ ys) body = (for_ xs body ;;; for_ ys body).
Proof.
  induction xs as [| x xs IH].
  - symmetry. apply (bind_ret_l tt).
  - simpl. rewrite bind_assoc, IH. reflexivity.
Qed.

Lemma bind_ret_r {A} (m : M A) : bind m ret = m.
Proof.
  destruct m as [w [e | a]]; [reflexivity |]. simpl. rewrite app_nil_r. reflexivity.
Qed.

Lemma for_nil {A} (body : A -> M unit) : for_ [] body = ret tt.
Proof. reflexivity. Qed.

Lemma for_single {A} (x : A) (body : A -> M unit) : for_ [x] body = body x.
Proof.
  simpl. unfold bind, ret.
  destruct (body x) as [w [e | []]]; [reflexivity |]. rewrite app_nil_r. reflexivity.
Qed.

Lemma filter_cons_app {A} (f : A -> bool) (xs : list A) (y : A) (ys : list A) :
  filter f (xs ++ y :: ys) = (filter f xs ++ (if f y then [y] else []) ++ filter f ys)%list.
Proof. rewrite filter_app. simpl. destruct (f y); reflexivity. Qed.

(** A loop stops at the first raised exception, and prints what its bodies
    print up to there. *)
Lemma for_prefix {A} (xs : list A) (body : A -> M unit) (f : A -> list string) :
  (forall x, In x xs ->
     (exists r, out (body x) ++ r = f x)%list /\
     (err (body x) = None -> out (body x) = f x)) ->
  (exists r, out (for_ xs body) ++ r = flat_map f xs)%list /\
  (err (for_ xs body) = None -> out (for_ xs body) = flat_map f xs).
Proof.
  induction xs as [| x xs IH]; intros H.
  - split; [exists []; reflexivity | reflexivity].
  - assert (Hx := H x (or_introl eq_refl)).
    destruct IH as [[r IHp] IHc]; [intros y Hy; apply H; now right |].
    destruct Hx as [[rx Hxp] Hxc].
    unfold out, err in *. simpl.
    destruct (body x) as [w [e | []]]; simpl in *.
    + split; [| discriminate]. exists (rx ++ flat_map f xs)%list.
      rewrite app_assoc, Hxp. reflexivity.
    + specialize (Hxc eq_refl). subst w.
      destruct (for_ xs body) as [w' r']; simpl in *.
      split.
      * exists r. rewrite <- app_assoc, IHp. reflexivity.
      * intros Hn. rewrite IHc by exact Hn. reflexivity.
Qed.

Lemma for_err {A} (xs : list A) (body : A -> M unit) (e : py_error) :
  err (for_ xs body) = Some e -> exists x, In x xs /\ err (body x) = Some e.
Proof.
  induction xs as [| x xs IH]; [discriminate |].
  unfold err in *. simpl. intros H.
  destruct (body x) as [w [e' | []]] eqn:Hb; simpl in H.
  - exists x. split; [now left | rewrite Hb; exact H].
  - destruct (for_ xs body) as [w' r'] eqn:Hf. simpl in H.
    destruct IH as [y [Hy Hy']]; [exact H |].
    exists y. split; [now right | exact Hy'].
Qed.

Lemma for_out {A} (xs : list A) (body : A -> M unit) (l : string) :
  In l (out (for_ xs body)) -> exists x, In x xs /\ In l (out (body x)).
Proof.
  induction xs as [| x xs IH]; [simpl; tauto |].
  unfold out in *. simpl. intros H.
  destruct (body x) as [w [e' | []]] eqn:Hb; simpl in H.
  - exists x. split; [now left | rewrite Hb; exact H].
  - destruct (for_ xs body) as [w' r'] eqn:Hf. simpl in H.
    apply in_app_or in H. destruct H as [H | H].
    + exists x. split; [now left | rewrite Hb; exact H].
    + destruct (IH H) as [y [Hy Hy']]. exists y. split; [now right | exact Hy'].
Qed.


(** ** Rounding to binary64 *)

Lemma rhe_div_nonneg (n d : Z) : 0 <= n -> 0 < d -> 0 <= rhe_div n d.
Proof.
  intros Hn Hd. unfold rhe_div.
  assert (0 <= n / d) by (apply Z.div_pos; lia).
  destruct (Z.compare _ _); [destruct (Z.even _) |..]; lia.
Qed.

Lemma rhe_div_le (n d j : Z) : 0 < d -> 2 * n < (2 * j + 1) * d -> rhe_div n d <= j.
Proof.
  intros Hd H. unfold rhe_div.
  pose proof (Z.div_mod n d ltac:(lia)) as Hdm. pose proof (Z.mod_pos_bound n d Hd) as Hr.
  set (q := n / d) in *. set (r := n mod d) in *.
  assert (Hq : q <= j) by nia.
  destruct (Z.compare_spec (2 * r) d) as [E | E | E].
  - destruct (Z.even q); [lia |]. assert (q <> j) by nia. lia.
  - lia.
  - assert (q <> j) by nia. lia.
Qed.

Lemma rhe_div_ge (n d j : Z) :
  0 < d -> (2 * j - 1) * d <= 2 * n -> Z.even j = true -> j <= rhe_div n d.
Proof.
  intros Hd H Hj. unfold rhe_div.
  pose proof (Z.div_mod n d ltac:(lia)) as Hdm. pose proof (Z.mod_pos_bound n d Hd) as Hr.
  set (q := n / d) in *. set (r := n mod d) in *.
  assert (Hq : j - 1 <= q) by nia.
  destruct (Z.compare_spec (2 * r) d) as [E | E | E].
  - destruct (Z.even q) eqn:Eq; [| lia].
    assert (q <> j - 1); [| lia].
    intros ->. rewrite Z.even_sub in Eq. rewrite Hj in Eq. discriminate.
  - assert (q <> j - 1) by nia. lia.
  - lia.
Qed.

Lemma rhe_div_ge_floor (n d j : Z) : 0 < d -> j * d <= n -> j <= rhe_div n d.
Proof.
  intros Hd H. unfold rhe_div.
  assert (j <= n / d) by (apply Z.div_le_lower_bound; lia).
  destruct (Z.compare _ _); [destruct (Z.even _) |..]; lia.
Qed.

Lemma ilog2_frac_spec (a b : Z) : 0 < a -> 0 < b ->
  exists s l, 0 <= s /\ 0 <= l /\ ilog2_frac a b = l - s /\
              b * 2 ^ l <= a * 2 ^ s /\ a * 2 ^ s < b * 2 ^ (l + 1).
Proof.
  intros Ha Hb. unfold ilog2_frac.
  set (s := Z.log2 b + 1).
  assert (Hs : 0 <= s) by (unfold s; pose proof (Z.log2_nonneg b); lia).
  assert (Hbs : b < 2 ^ s) by (unfold s; destruct (Z.log2_spec b Hb); rewrite <- Z.add_1_r in *; lia).
  assert (Hps : 0 < 2 ^ s) by (apply Z.pow_pos_nonneg; lia).
  set (q := a * 2 ^ s / b).
  assert (Hq : 1 <= q) by (apply Z.div_le_lower_bound; nia).
  destruct (Z.log2_spec q ltac:(lia)) as [Hl1 Hl2]. rewrite <- Z.add_1_r in Hl2.
  pose proof (Z.mul_div_le (a * 2 ^ s) b Hb) as H1.
  pose proof (Z.mul_succ_div_gt (a * 2 ^ s) b Hb) as H2. fold q in H1, H2.
  exists s, (Z.log2 q). split; [exact Hs |]. split; [apply Z.log2_nonneg |].
  split; [reflexivity |]. split; nia.
Qed.

Lemma ilog2_lower (a b j : Z) :
  0 < a -> 0 < b -> 0 <= j -> j <= ilog2_frac a b -> b * 2 ^ j <= a.
Proof.
  intros Ha Hb Hj Hk. destruct (ilog2_frac_spec a b Ha Hb) as [s [l [Hs [Hl [E [H1 H2]]]]]].
  rewrite E in Hk.
  assert (2 ^ (j + s) <= 2 ^ l) by (apply Z.pow_le_mono_r; lia).
  rewrite Z.pow_add_r in * by lia.
  assert (0 < 2 ^ s) by (apply Z.pow_pos_nonneg; lia).
  nia.
Qed.

Lemma ilog2_upper (a b j : Z) :
  0 < a -> 0 < b -> 0 <= j -> ilog2_frac a b < j -> a < b * 2 ^ j.
Proof.
  intros Ha Hb Hj Hk. destruct (ilog2_frac_spec a b Ha Hb) as [s [l [Hs [Hl [E [H1 H2]]]]]].
  rewrite E in Hk.
  assert (2 ^ (l + 1) <= 2 ^ (j + s)) by (apply Z.pow_le_mono_r; lia).
  rewrite (Z.pow_add_r 2 j s) in * by lia.
  assert (0 < 2 ^ s) by (apply Z.pow_pos_nonneg; lia).
  nia.
Qed.

(** A quotient of at most [B <= 128] rounds to a double of at most [B]. *)
Lemma round_binary64_le (a b B : Z) :
  0 < a -> 0 < b -> 0 < B <= 128 -> a <= B * b ->
  exists m e, round_binary64 a b = Some (m, e) /\ e < 0 /\ 0 <= m <= B * 2 ^ (- e).
Proof.
  intros Ha Hb HB Hab. unfold round_binary64, binary64_exponent.
  assert (Hk : ilog2_frac a b < 8).
  { destruct (Z.lt_ge_cases (ilog2_frac a b) 8) as [H | H]; [exact H |].
    pose proof (ilog2_lower a b 8 Ha Hb ltac:(lia) H). change (2 ^ 8) with 256 in *. nia. }
  set (e := Z.max (ilog2_frac a b - 52) (-1074)).
  assert (He : e < 0) by (unfold e; lia).
  unfold scale_pow2. rewrite (proj2 (Z.leb_gt 0 e) He).
  assert (HP : 0 < 2 ^ (- e)) by (apply Z.pow_pos_nonneg; lia).
  assert (Hm : rhe_div (a * 2 ^ (- e)) b <= B * 2 ^ (- e)) by (apply rhe_div_le; nia).
  assert (Hm0 : 0 <= rhe_div (a * 2 ^ (- e)) b) by (apply rhe_div_nonneg; nia).
  unfold dyadic. rewrite (proj2 (Z.leb_gt 0 e) He).
  assert (HT : 128 < 2 ^ 1024) by reflexivity.
  rewrite (proj2 (Z.leb_gt _ _)) by nia.
  exists (rhe_div (a * 2 ^ (- e)) b), e. auto.
Qed.

Lemma round_binary64_overflow (a b : Z) :
  0 < a -> 0 < b -> (round_binary64 a b = None <-> overflow_bound * b <= a).
Proof.
  intros Ha Hb. unfold round_binary64, binary64_exponent, overflow_bound.
  set (k := ilog2_frac a b).
  assert (HT : 2 ^ 1024 = 2 ^ 54 * 2 ^ 970) by (rewrite <- Z.pow_add_r; reflexivity || lia).
  destruct (Z.lt_ge_cases k 1023) as [Hk | Hk].
  - (* below 2^1023: no overflow *)
    pose proof (ilog2_upper a b 1023 Ha Hb ltac:(lia) Hk) as Hup.
    assert (H1023 : 2 ^ 1024 = 2 * 2 ^ 1023) by reflexivity.
    assert (H970 : 2 ^ 1023 = 2 ^ 53 * 2 ^ 970) by reflexivity.
    assert (0 < 2 ^ 970) by reflexivity.
    split; [| intros Hov; exfalso; nia].
    set (e := Z.max (k - 52) (-1074)).
    assert (He : e <= 970) by (unfold e; lia).
    unfold scale_pow2, dyadic. destruct (Z.leb_spec 0 e) as [He0 | He0].
    + assert (HP : 2 ^ 1023 = 2 ^ (1023 - e) * 2 ^ e)
        by (rewrite <- Z.pow_add_r by lia; f_equal; lia).
      assert (0 < 2 ^ e) by (apply Z.pow_pos_nonneg; lia).
      assert (rhe_div a (b * 2 ^ e) <= 2 ^ (1023 - e)) by (apply rhe_div_le; nia).
      rewrite (proj2 (Z.leb_gt _ _)); [discriminate |]. nia.
    + assert (0 < 2 ^ (- e)) by (apply Z.pow_pos_nonneg; lia).
      assert (rhe_div (a * 2 ^ (- e)) b <= 2 ^ 1023 * 2 ^ (- e)) by (apply rhe_div_le; nia).
      rewrite (proj2 (Z.leb_gt _ _)); [discriminate |]. nia.
  - assert (He : Z.max (k - 52) (-1074) = k - 52) by lia. rewrite He.
    unfold scale_pow2, dyadic. rewrite (proj2 (Z.leb_le 0 (k - 52))) by lia.
    pose proof (ilog2_lower a b k Ha Hb ltac:(lia) ltac:(lia)) as Hlow.
    assert (HP : 2 ^ k = 2 ^ 52 * 2 ^ (k - 52))
      by (rewrite <- Z.pow_add_r by lia; f_equal; lia).
    assert (0 < 2 ^ (k - 52)) by (apply Z.pow_pos_nonneg; lia).
    destruct (Z.eq_dec k 1023) as [Ek | Ek].
    + (* the top binade: overflow exactly from 2^1024 - 2^970 on *)
      rewrite Ek in *. change (1023 - 52) with 971 in *.
      assert (H971 : 2 ^ 971 = 2 * 2 ^ 970) by reflexivity.
      assert (H54 : 2 ^ 54 = 2 * 2 ^ 53) by reflexivity.
      assert (0 < 2 ^ 970) by reflexivity.
      split.
      * destruct (Z.leb_spec (2 ^ 1024 * 1) (rhe_div a (b * 2 ^ 971) * 2 ^ 971))
          as [Hov | Hov]; [intros _ | discriminate].
        destruct (Z.lt_ge_cases a ((2 ^ 1024 - 2 ^ 970) * b)) as [Ha' | Ha']; [| exact Ha'].
        exfalso.
        assert (rhe_div a (b * 2 ^ 971) <= 2 ^ 53 - 1) by (apply rhe_div_le; nia).
        nia.
      * intros Hge.
        assert (2 ^ 53 <= rhe_div a (b * 2 ^ 971)) by (apply rhe_div_ge; [nia | nia | reflexivity]).
        rewrite (proj2 (Z.leb_le _ _)) by nia. reflexivity.
    + (* from 2^1024 on *)
      assert (Hk' : 1024 <= k) by lia.
      assert (H2k : 2 ^ 1024 <= 2 ^ k) by (apply Z.pow_le_mono_r; lia).
      assert (2 ^ 52 <= rhe_div a (b * 2 ^ (k - 52))) by (apply rhe_div_ge_floor; nia).
      assert (0 < 2 ^ 970) by reflexivity.
      rewrite (proj2 (Z.leb_le _ _)) by nia.
      split; [intros _ | reflexivity]. nia.
Qed.

Lemma round_binary64_nonneg (a b m e : Z) :
  0 <= a -> 0 < b -> round_binary64 a b = Some (m, e) -> 0 <= m.
Proof.
  intros Ha Hb. unfold round_binary64.
  set (e0 := binary64_exponent a b).
  unfold scale_pow2, dyadic.
  destruct (Z.leb_spec 0 e0) as [He | He].
  - assert (0 < 2 ^ e0) by (apply Z.pow_pos_nonneg; lia).
    pose proof (rhe_div_nonneg a (b * 2 ^ e0) Ha ltac:(nia)).
    destruct (_ <=? _)%Z; [discriminate | intros Hs; injection Hs as <- _; assumption].
  - assert (0 < 2 ^ (- e0)) by (apply Z.pow_pos_nonneg; lia).
    pose proof (rhe_div_nonneg (a * 2 ^ (- e0)) b ltac:(nia) Hb).
    destruct (_ <=? _)%Z; [discriminate | intros Hs; injection Hs as <- _; assumption].
Qed.

(** ** Python's division and multiplication on the counters *)

Lemma py_truediv_cases (a b : Z) :
  b <> 0 -> (exists x, py_truediv a b = ret x) \/ py_truediv a b = raise OverflowError.
Proof.
  intros Hb. unfold py_truediv. rewrite (proj2 (Z.eqb_neq _ _) Hb).
  destruct (Z.eqb a 0); [left; eexists; reflexivity |].
  destruct (round_binary64 _ _) as [[m e] |]; [left; eexists; reflexivity | right; reflexivity].
Qed.

(** With a positive divisor the quotient carries the sign of the dividend, and
    a non-negative magnitude. *)
Lemma py_truediv_sign (a b : Z) (x : pyfloat) :
  0 < b -> py_truediv a b = ret x -> exists m e, x = Fin (Z.ltb a 0) m e /\ 0 <= m.
Proof.
  intros Hb. unfold py_truediv. rewrite (proj2 (Z.eqb_neq b 0)) by lia.
  rewrite (proj2 (Z.ltb_ge b 0)) by lia. rewrite xorb_false_r.
  destruct (Z.eqb_spec a 0) as [-> | Ha].
  - intros H. injection H as <-. exists 0, 0. split; [reflexivity | lia].
  - destruct (round_binary64 (Z.abs a) (Z.abs b)) as [[m e] |] eqn:Hr; [| discriminate].
    intros H. injection H as <-. exists m, e. split; [reflexivity |].
    apply (round_binary64_nonneg (Z.abs a) (Z.abs b) m e); [lia | lia | exact Hr].
Qed.

Lemma overflow_bound_pos : 0 < overflow_bound.
Proof. reflexivity. Qed.

(** [a / b] overflows exactly when [|a| >= (2^1024 - 2^970) * b]. *)
Lemma py_truediv_overflow (a b : Z) :
  0 < b -> (py_truediv a b = raise OverflowError <-> overflow_bound * b <= Z.abs a).
Proof.
  intros Hb. pose proof overflow_bound_pos as Hob.
  unfold py_truediv. rewrite (proj2 (Z.eqb_neq b 0)) by lia.
  destruct (Z.eqb_spec a 0) as [-> | Ha].
  - split; [discriminate | intros H'].
    pose proof (Z.mul_pos_pos _ _ Hob Hb). change (Z.abs 0) with 0 in H'. lia.
  - rewrite (Z.abs_eq b) by lia.
    rewrite <- (round_binary64_overflow (Z.abs a) b) by lia.
    destruct (round_binary64 (Z.abs a) b) as [[m e] |]; split; try congruence.
    all: unfold ret, raise; intros Hx; inversion Hx.
Qed.

(** [x * c] keeps the sign bit of [x], and a non-negative magnitude. *)
Lemma float_mul_int_sign (neg : bool) (m e c : Z) :
  0 <= m -> 0 < c ->
  (exists m' e', float_mul_int (Fin neg m e) c = Fin neg m' e' /\ 0 <= m')
  \/ float_mul_int (Fin neg m e) c = Inf neg.
Proof.
  intros Hm Hc. unfold float_mul_int.
  destruct (Z.eqb_spec m 0) as [-> | Hm0]; [left; exists 0, 0; split; [reflexivity | lia] |].
  unfold dyadic. destruct (Z.leb_spec 0 e) as [He | He].
  - assert (0 < 2 ^ e) by (apply Z.pow_pos_nonneg; lia).
    destruct (round_binary64 (m * c * 2 ^ e) 1) as [[m' e'] |] eqn:Hr; [left | right; reflexivity].
    exists m', e'. split; [reflexivity |].
    apply (round_binary64_nonneg (m * c * 2 ^ e) 1 m' e'); [nia | lia | exact Hr].
  - assert (0 < 2 ^ (- e)) by (apply Z.pow_pos_nonneg; lia).
    destruct (round_binary64 (m * c) (2 ^ (- e))) as [[m' e'] |] eqn:Hr; [left | right; reflexivity].
    exists m', e'. split; [reflexivity |].
    apply (round_binary64_nonneg (m * c) (2 ^ (- e)) m' e'); [nia | lia | exact Hr].
Qed.

(** A negative float (sign bit set, [-0.0] included) is below any positive
    [int]. *)
Lemma float_lt_int_neg (m e c : Z) : 0 <= m -> 0 < c -> float_lt_int (Fin true m e) c = true.
Proof.
  intros Hm Hc. unfold float_lt_int, float_compare_int, dyadic.
  destruct (Z.leb_spec 0 e) as [He | He].
  - assert (0 < 2 ^ e) by (apply Z.pow_pos_nonneg; lia).
    rewrite (proj2 (Z.compare_lt_iff _ _)) by nia. reflexivity.
  - assert (0 < 2 ^ (- e)) by (apply Z.pow_pos_nonneg; lia).
    rewrite (proj2 (Z.compare_lt_iff _ _)) by nia. reflexivity.
Qed.

(** ** Per-element lemmas of the reporter *)

Lemma report_children (rt : string) (ra : list (string * string)) (ps : list element) :
  report (Element rt ra ps)
  = for_ (filter (fun c => String.eqb (tag c) "package") ps) package_body.
Proof. reflexivity. Qed.

Lemma int_of_attr_cases (v : option string) :
  (exists z, int_of_attr v = ret z) \/ int_of_attr v = raise TypeError
  \/ int_of_attr v = raise ValueError.
Proof.
  unfold int_of_attr. destruct v as [s |]; [| auto].
  destruct (py_int s) as [z |]; [left; exists z |]; auto.
Qed.

(** The shape of one iteration of the inner loop: nothing, one line, or an
    exception raised before anything is printed. *)
Lemma class_body_cases (n : string) (c : element) :
  class_body n c = ret tt
  \/ (exists x, class_body n c
               = emit (n ++ "/" ++ py_str (get c "sourcefilename") ++ ": "
                       ++ format_2f x ++ "%"))
  \/ class_body n c = raise TypeError \/ class_body n c = raise ValueError
  \/ class_body n c = raise OverflowError.
Proof.
  unfold class_body.
  destruct (find_line_counter c) as [lc |]; [| auto].
  destruct (int_of_attr_cases (get lc "missed")) as [[m Hm] | [Hm | Hm]];
    rewrite Hm; [rewrite bind_ret_l | auto | auto].
  destruct (int_of_attr_cases (get lc "covered")) as [[cv Hc] | [Hc | Hc]];
    rewrite Hc; [rewrite bind_ret_l | auto | auto].
  destruct (Z.ltb 0 (m + cv)) eqn:Ht; [| auto].
  apply Z.ltb_lt in Ht.
  destruct (py_truediv_cases cv (m + cv) ltac:(lia)) as [[x Hx] | Hx]; rewrite Hx;
    [rewrite bind_ret_l | auto].
  destruct (float_lt_int _ _); [| auto].
  right; left. eexists. reflexivity.
Qed.

Lemma class_body_no_line_counter (n : string) (c : element) :
  find_line_counter c = None -> class_body n c = ret tt.
Proof. intros H. unfold class_body. rewrite H. reflexivity. Qed.

Lemma package_body_foreign (p : element) (n : string) :
  get p "name" = Some n -> startswith n package_prefix = false ->
  package_body p = ret tt.
Proof. intros Hn Hs. unfold package_body. rewrite Hn, Hs. reflexivity. Qed.

Lemma package_body_matching (p : element) (n : string) :
  get p "name" = Some n -> startswith n package_prefix = true ->
  package_body p = for_ (findall "class" p) (class_body n).
Proof. intros Hn Hs. unfold package_body. rewrite Hn, Hs. reflexivity. Qed.

(** ** C2: packages outside the prefix print nothing *)

(** C2: a package whose name does not start with [com/android/designcompose]
    contributes nothing to the run, whatever classes and counters it holds:
    removing it from the document leaves the printed lines and the outcome
    unchanged. *)
Theorem report_ignores_foreign_package
    (rt : string) (ra : list (string * string)) (ps1 ps2 : list element)
    (p : element) (n : string) :
  get p "name" = Some n -> startswith n package_prefix = false ->
  report (Element rt ra (ps1 ++ p :: ps2)) = report (Element rt ra (ps1 ++ ps2)).
Proof.
  intros Hn Hs. rewrite !report_children, filter_cons_app, filter_app, !for_app.
  destruct (String.eqb (tag p) "package").
  - rewrite for_single, (package_body_foreign p n Hn Hs), bind_ret_l. reflexivity.
  - rewrite for_nil, bind_ret_l. reflexivity.
Qed.

(** ** C4: classes without a LINE counter are skipped *)

(** C4: a class with no [counter] child of type LINE is skipped: removing it
    from its package leaves the printed lines and the outcome of the whole run
    unchanged, so the run goes on with the remaining classes. *)
Theorem report_skips_class_without_line_counter
    (rt pt : string) (ra pa : list (string * string))
    (ps1 ps2 cs1 cs2 : list element) (c : element) :
  find_line_counter c = None ->
  report (Element rt ra (ps1 ++ Element pt pa (cs1 ++ c :: cs2) :: ps2))
  = report (Element rt ra (ps1 ++ Element pt pa (cs1 ++ cs2) :: ps2)).
Proof.
  intros Hc.
  assert (Hp : package_body (Element pt pa (cs1 ++ c :: cs2))
               = package_body (Element pt pa (cs1 ++ cs2))).
  { unfold package_body. change (get (Element pt pa (cs1 ++ c :: cs2)) "name")
      with (get (Element pt pa (cs1 ++ cs2)) "name").
    destruct (get (Element pt pa (cs1 ++ cs2)) "name") as [n |]; [| reflexivity].
    destruct (negb (startswith n package_prefix)); [reflexivity |].
    unfold findall. simpl children.
    rewrite filter_cons_app, filter_app, !for_app.
    destruct (String.eqb (tag c) "class").
    - rewrite for_single, (class_body_no_line_counter n c Hc), bind_ret_l. reflexivity.
    - rewrite for_nil, bind_ret_l. reflexivity. }
  rewrite !report_children, !filter_cons_app, !for_app. simpl tag.
  destruct (String.eqb pt "package"); [| reflexivity].
  rewrite !for_single, Hp. reflexivity.
Qed.

(** ** C10: a package without a name aborts the run *)

(** C10: when the run reaches a package element with no [name] attribute
    (every earlier package went through without an exception), it stops there
    with an uncaught [AttributeError]; nothing after it is looked at, and the
    lines printed are those of the earlier packages. *)
Theorem report_aborts_on_nameless_package
    (rt : string) (ra : list (string * string)) (ps1 ps2 : list element)
    (p : element) :
  tag p = "package" -> get p "name" = None ->
  err (report (Element rt ra ps1)) = None ->
  report (Element rt ra (ps1 ++ p :: ps2))
  = (out (report (Element rt ra ps1)), inl AttributeError).
Proof.
  intros Ht Hn Hok. rewrite report_children, filter_cons_app, !for_app.
  rewrite report_children in *. rewrite Ht, String.eqb_refl, for_single.
  assert (Hp : package_body p = raise AttributeError)
    by (unfold package_body; rewrite Hn; reflexivity).
  rewrite Hp. unfold err, out in *.
  destruct (for_ _ package_body) as [w [e | []]]; simpl in *; [discriminate |].
  rewrite app_nil_r. reflexivity.
Qed.

Lemma class_body_at_most_one_line (n : string) (c : element) :
  (List.length (out (class_body n c)) <= 1)%nat.
Proof.
  destruct (class_body_cases n c) as [H | [[x H] | [H | [H | H]]]]; rewrite H; simpl; lia.
Qed.

(** ** C6: lines come out in document order *)

(** C6: the printed lines are always an initial segment of the lines of the
    classes taken in document order (packages in order, then the classes of
    each package in order; each class prints at most one line), and all of
    them when the run raises nothing: nothing is re-sorted. *)
Theorem report_follows_document_order (root : element) :
  (forall n c, (List.length (out (class_body n c)) <= 1)%nat) /\
  (exists rest, out (report root) ++ rest = document_lines root)%list /\
  (err (report root) = None -> out (report root) = document_lines root).
Proof.
  split; [apply class_body_at_most_one_line |].
  apply for_prefix. intros p _.
  unfold package_body. destruct (get p "name") as [n |].
  - destruct (startswith n package_prefix); simpl.
    + apply for_prefix. intros c _. split; [exists []; apply app_nil_r | auto].
    + split; [exists []; reflexivity | auto].
  - split; [exists []; reflexivity | discriminate].
Qed.

(** ** C1: the threshold rule *)

Lemma bind_out_ok {A B} (m : M A) (a : A) (k : A -> M B) :
  snd m = inr a -> out (bind m k) = (out m ++ out (k a))%list.
Proof.
  destruct m as [w r]. simpl. intros ->. unfold out. simpl.
  destruct (k a); reflexivity.
Qed.

Lemma bind_out_prefix {A B} (m : M A) (k : A -> M B) :
  exists r, out (bind m k) = (out m ++ r)%list.
Proof.
  destruct m as [w [e | a]]; simpl.
  - exists []. unfold out. simpl. rewrite app_nil_r. reflexivity.
  - unfold out. destruct (k a) as [w' r']. exists w'. reflexivity.
Qed.

Lemma err_none_unit (m : M unit) : err m = None -> snd m = inr tt.
Proof. unfold err. destruct m as [w [e | []]]; simpl; congruence. Qed.

(** One class with integer counters and a positive total. *)
Lemma class_body_counted (n : string) (c lc : element) (sm sc : string) (m cv : Z) :
  find_line_counter c = Some lc ->
  get lc "missed" = Some sm -> py_int sm = Some m ->
  get lc "covered" = Some sc -> py_int sc = Some cv ->
  (0 < m + cv)%Z ->
  class_body n c
  = (ratio <- py_truediv cv (m + cv) ;;
     let coverage := float_mul_int ratio 100 in
     if float_lt_int coverage 50
     then emit (n ++ "/" ++ py_str (get c "sourcefilename") ++ ": "
                ++ format_2f coverage ++ "%")
     else ret tt).
Proof.
  intros Hc Hm Hpm Hcv Hpc Ht. unfold class_body. rewrite Hc.
  unfold int_of_attr. rewrite Hm, Hpm, bind_ret_l, Hcv, Hpc, bind_ret_l.
  rewrite (proj2 (Z.ltb_lt _ _) Ht). reflexivity.
Qed.

(** An overflowing quotient needs a negative counter. *)
Lemma overflow_needs_negative (m cv : Z) :
  (0 < m + cv)%Z -> (overflow_bound * (m + cv) <= Z.abs cv)%Z -> (m < 0 \/ cv < 0)%Z.
Proof.
  intros Ht Ho. assert (2 <= overflow_bound)%Z by (apply Z.leb_le; vm_compute; reflexivity).
  destruct (Z.abs_spec cv) as [[? Ha] | [? Ha]]; rewrite Ha in Ho; nia.
Qed.

(** C1 (as amended): when the run reaches a class of a package whose name
    starts with the prefix (no earlier package or class raised), and the
    class's LINE counter has integer [missed] and [covered] with a positive
    total, the run prints, at that point of its output, exactly one line for
    the class if the double [covered / total * 100] (the quotient rounded to a
    double, then the product rounded) is below 50 and none otherwise (so none
    at 50.0); when the quotient overflows, which needs a negative counter, the
    run raises [OverflowError] there instead. *)
Theorem report_emits_iff_below_threshold
    (root p c lc : element) (ps1 ps2 cs1 cs2 : list element)
    (n sm sc : string) (m cv : Z) :
  findall "package" root = (ps1 ++ p :: ps2)%list ->
  get p "name" = Some n -> startswith n package_prefix = true ->
  findall "class" p = (cs1 ++ c :: cs2)%list ->
  find_line_counter c = Some lc ->
  get lc "missed" = Some sm -> py_int sm = Some m ->
  get lc "covered" = Some sc -> py_int sc = Some cv ->
  (0 < m + cv)%Z ->
  err (for_ ps1 package_body) = None ->
  err (for_ cs1 (class_body n)) = None ->
  (exists rest, out (report root)
                = out (for_ ps1 package_body) ++ out (for_ cs1 (class_body n))
                  ++ out (class_body n c) ++ rest)%list /\
  (forall ratio, py_truediv cv (m + cv) = ret ratio ->
   (float_lt_int (float_mul_int ratio 100) 50 = true ->
    class_body n c = emit (n ++ "/" ++ py_str (get c "sourcefilename") ++ ": "
                           ++ format_2f (float_mul_int ratio 100) ++ "%")) /\
   (float_lt_int (float_mul_int ratio 100) 50 = false -> class_body n c = ret tt)) /\
  (py_truediv cv (m + cv) = raise OverflowError ->
   class_body n c = raise OverflowError /\ (m < 0 \/ cv < 0)%Z).
Proof.
  intros Hps Hn Hs Hcs Hc Hm Hpm Hcv Hpc Ht Hok1 Hok2.
  pose proof (class_body_counted n c lc sm sc m cv Hc Hm Hpm Hcv Hpc Ht) as Hb.
  split; [| split].
  - unfold report. rewrite Hps, for_app.
    rewrite (bind_out_ok _ tt) by (apply err_none_unit; exact Hok1).
    simpl for_. rewrite (package_body_matching p n Hn Hs), Hcs, for_app.
    rewrite bind_assoc.
    rewrite (bind_out_ok _ tt) by (apply err_none_unit; exact Hok2).
    change (for_ (c :: cs2) (class_body n))
      with (class_body n c ;;; for_ cs2 (class_body n)).
    rewrite bind_assoc.
    match goal with
    | |- context [out (bind (class_body n c) ?k)] =>
        destruct (bind_out_prefix (class_body n c) k) as [r Hr]
    end.
    rewrite Hr. exists r. rewrite !app_assoc. reflexivity.
  - intros ratio Hr. rewrite Hb, Hr, bind_ret_l. cbv zeta.
    split; intros Hlt; rewrite Hlt; reflexivity.
  - intros Ho. rewrite Hb, Ho. split; [reflexivity |].
    apply overflow_needs_negative; [exact Ht |].
    apply (proj1 (py_truediv_overflow cv (m + cv) Ht)), Ho.
Qed.

(** ** C3: a zero total prints nothing, and nothing divides by zero *)

Lemma class_body_not_zero_division (n : string) (c : element) :
  err (class_body n c) <> Some ZeroDivisionError.
Proof.
  destruct (class_body_cases n c) as [H | [[x H] | [H | [H | H]]]]; rewrite H; discriminate.
Qed.

Lemma package_body_not_zero_division (p : element) :
  err (package_body p) <> Some ZeroDivisionError.
Proof.
  unfold package_body. destruct (get p "name") as [n |]; [| discriminate].
  destruct (negb (startswith n package_prefix)); [discriminate |].
  intros H. apply for_err in H. destruct H as [c [_ Hc]].
  exact (class_body_not_zero_division n c Hc).
Qed.

(** C3: a class whose LINE counter has [missed + covered = 0] prints nothing
    and raises nothing; and the division [covered / total] is only evaluated
    behind the [total > 0] test, so no run ever raises [ZeroDivisionError]. *)
Theorem report_skips_zero_total_without_zero_division :
  (forall root, err (report root) <> Some ZeroDivisionError) /\
  (forall n c lc sm sc m cv,
     find_line_counter c = Some lc ->
     get lc "missed" = Some sm -> py_int sm = Some m ->
     get lc "covered" = Some sc -> py_int sc = Some cv ->
     (m + cv = 0)%Z -> class_body n c = ret tt).
Proof.
  split.
  - intros root H. apply for_err in H. destruct H as [p [_ Hp]].
    exact (package_body_not_zero_division p Hp).
  - intros n c lc sm sc m cv Hc Hm Hpm Hcv Hpc Ht.
    unfold class_body. rewrite Hc. unfold int_of_attr.
    rewrite Hm, Hpm, bind_ret_l, Hcv, Hpc, bind_ret_l, Ht. reflexivity.
Qed.

(** ** C8: the percentage lies in [0, 100] *)

(** C8: for non-negative [missed] and [covered] with a positive total, the
    division succeeds, and the double [covered / total * 100] is finite, has
    its sign bit clear and compares, as Python compares it with an [int], at
    least 0 and at most 100. *)
Theorem coverage_percentage_in_range (m cv : Z) :
  (0 <= m)%Z -> (0 <= cv)%Z -> (0 < m + cv)%Z ->
  exists ratio, py_truediv cv (m + cv) = ret ratio /\
                (exists mant e, float_mul_int ratio 100 = Fin false mant e) /\
                float_compare_int (float_mul_int ratio 100) 0 <> Lt /\
                float_compare_int (float_mul_int ratio 100) 100 <> Gt.
Proof.
  intros Hm Hc Ht. unfold py_truediv.
  rewrite (proj2 (Z.eqb_neq _ _)) by lia.
  rewrite (proj2 (Z.ltb_ge cv 0)) by lia. rewrite (proj2 (Z.ltb_ge (m + cv) 0)) by lia.
  destruct (Z.eqb_spec cv 0) as [-> | Hc0].
  { eexists. split; [reflexivity |]. cbn. split; [eauto | split; discriminate]. }
  rewrite (Z.abs_eq cv), (Z.abs_eq (m + cv)) by lia.
  destruct (round_binary64_le cv (m + cv) 1 ltac:(lia) Ht ltac:(lia) ltac:(lia))
    as [mr [er [Hr [Her Hmr]]]].
  rewrite Hr. change (xorb false false) with false. eexists. split; [reflexivity |].
  destruct (Z.eqb_spec mr 0) as [-> | Hmr0].
  { cbn. split; [eauto | split; discriminate]. }
  assert (HP : (0 < 2 ^ (- er))%Z) by (apply Z.pow_pos_nonneg; lia).
  destruct (round_binary64_le (mr * 100) (2 ^ (- er)) 100 ltac:(lia) HP ltac:(lia) ltac:(lia))
    as [m2 [e2 [H2 [He2 Hm2]]]].
  assert (Hf : float_mul_int (Fin false mr er) 100 = Fin false m2 e2).
  { unfold float_mul_int. rewrite (proj2 (Z.eqb_neq _ _) Hmr0).
    unfold dyadic. rewrite (proj2 (Z.leb_gt 0 er) Her), H2. reflexivity. }
  rewrite Hf. split; [eauto |].
  unfold float_compare_int, dyadic. rewrite (proj2 (Z.leb_gt 0 e2) He2).
  split; [rewrite Z.compare_lt_iff | rewrite Z.compare_gt_iff]; lia.
Qed.

(** ** C7: the ways a run can fail *)






(** ** C5: the shape of a printed line *)

Lemma str_app_assoc (a b c : string) : (a ++ b) ++ c = a ++ (b ++ c).
Proof. induction a as [| x a IH]; simpl; [reflexivity | rewrite IH; reflexivity]. Qed.

Lemma all_digits_app (a b : string) :
  all_digits (a ++ b) = all_digits a && all_digits b.
Proof.
  induction a as [| x a IH]; simpl; [reflexivity |].
  rewrite IH, andb_assoc. reflexivity.
Qed.

Lemma digit_char_is_digit (d : Z) : (0 <= d <= 9)%Z -> is_digit (digit_char d) = true.
Proof.
  intros Hd. unfold is_digit, digit_char.
  rewrite nat_ascii_embedding by lia.
  apply andb_true_intro. split; apply Nat.leb_le; lia.
Qed.

Lemma digit_char_mod10 (n : Z) : is_digit (digit_char (n mod 10)) = true.
Proof. apply digit_char_is_digit. pose proof (Z.mod_pos_bound n 10). lia. Qed.

Lemma dec_digits_shape (fuel : nat) (n : Z) :
  dec_digits fuel n <> "" /\ all_digits (dec_digits fuel n) = true.
Proof.
  revert n. induction fuel as [| f IH]; intros n; cbn [dec_digits];
    destruct (Z.eqb (n / 10) 0);
    try (split; [discriminate | cbn [all_digits]; rewrite digit_char_mod10; reflexivity]).
  destruct (IH (n / 10)) as [Hne Hd]. split.
  - destruct (dec_digits f (n / 10)); [contradiction | discriminate].
  - rewrite all_digits_app, Hd. cbn [all_digits]. rewrite digit_char_mod10. reflexivity.
Qed.

Lemma format_2f_finite_shape (neg : bool) (m e : Z) :
  exists sign ip d1 d2,
    format_2f (Fin neg m e) = sign ++ ip ++ "." ++ String d1 (String d2 "") /\
    (sign = "" \/ sign = "-") /\ ip <> "" /\ all_digits ip = true /\
    is_digit d1 = true /\ is_digit d2 = true.
Proof.
  unfold format_2f. destruct (dyadic m e) as [vn vd].
  set (r := rhe_div _ _).
  destruct (dec_digits_shape (S (Z.to_nat (Z.log2 (r / 100)))) (r / 100)) as [Hne Hd].
  pose proof (Z.mod_pos_bound r 100) as Hr.
  exists (if neg then "-" else ""), (dec_string (r / 100)),
         (digit_char ((r mod 100) / 10)), (digit_char ((r mod 100) mod 10)).
  split; [reflexivity |]. split; [destruct neg; auto |].
  split; [exact Hne |]. split; [exact Hd |].
  split; apply digit_char_is_digit.
  - split; [apply Z.div_pos; lia |].
    assert ((r mod 100) / 10 < 10)%Z by (apply Z.div_lt_upper_bound; lia). lia.
  - pose proof (Z.mod_pos_bound (r mod 100) 10). lia.
Qed.

(** Why a class prints a line: a LINE counter with integer counts, a positive
    total, a quotient that fits a double and a percentage below 50, which the
    line shows. *)
Lemma class_body_line (n : string) (c : element) (l : string) :
  In l (out (class_body n c)) ->
  exists lc m cv ratio,
    find_line_counter c = Some lc /\
    int_of_attr (get lc "missed") = ret m /\ int_of_attr (get lc "covered") = ret cv /\
    (0 < m + cv)%Z /\ py_truediv cv (m + cv) = ret ratio /\
    float_lt_int (float_mul_int ratio 100) 50 = true /\
    l = n ++ "/" ++ py_str (get c "sourcefilename") ++ ": "
        ++ format_2f (float_mul_int ratio 100) ++ "%".
Proof.
  unfold class_body.
  destruct (find_line_counter c) as [lc |]; [| simpl; tauto].
  destruct (int_of_attr_cases (get lc "missed")) as [[m Hm] | [Hm | Hm]];
    rewrite Hm; [rewrite bind_ret_l | simpl; tauto | simpl; tauto].
  destruct (int_of_attr_cases (get lc "covered")) as [[cv Hc] | [Hc | Hc]];
    rewrite Hc; [rewrite bind_ret_l | simpl; tauto | simpl; tauto].
  destruct (Z.ltb 0 (m + cv)) eqn:Ht; [| simpl; tauto].
  apply Z.ltb_lt in Ht.
  destruct (py_truediv_cases cv (m + cv) ltac:(lia)) as [[x Hx] | Hx]; rewrite Hx;
    [rewrite bind_ret_l | simpl; tauto].
  destruct (float_lt_int _ _) eqn:Hq; [| simpl; tauto].
  intros [<- | []].
  exists lc, m, cv, x. repeat split; auto.
Qed.

(** A printed percentage that is not finite is [-inf], and comes from a
    negative [covered]. *)
Lemma line_percentage_infinite (cv t : Z) (ratio : pyfloat) (neg : bool) :
  (0 < t)%Z -> py_truediv cv t = ret ratio ->
  float_mul_int ratio 100 = Inf neg -> float_lt_int (Inf neg) 50 = true ->
  neg = true /\ (cv < 0)%Z.
Proof.
  intros Ht Hr Hinf Hlt. destruct neg; [| discriminate].
  split; [reflexivity |].
  destruct (py_truediv_sign cv t ratio Ht Hr) as [m [e [-> Hm]]].
  destruct (float_mul_int_sign (cv <? 0)%Z m e 100 Hm ltac:(lia))
    as [[m' [e' [H _]]] | H]; rewrite H in Hinf; [discriminate |].
  injection Hinf as Hs. apply Z.ltb_lt, Hs.
Qed.

Lemma package_body_line (p : element) (l : string) :
  In l (out (package_body p)) ->
  exists n c, get p "name" = Some n /\ startswith n package_prefix = true /\
              In c (findall "class" p) /\ In l (out (class_body n c)).
Proof.
  unfold package_body. destruct (get p "name") as [n |]; [| simpl; tauto].
  destruct (startswith n package_prefix) eqn:Hs; simpl; [| tauto].
  intros H. apply for_out in H. destruct H as [c [Hc Hl]].
  exists n, c. auto.
Qed.

(** C5 (as amended): every printed line reads
    [<package name>/<sourcefilename>: <p>%], the package being one of the
    document whose name starts with the prefix and the source file name that
    of one of its classes, where [<p>] is an optional minus sign, a non-empty
    run of decimal digits, a point and exactly two decimal digits, except when
    [covered / total * 100] overflows to minus infinity: then [<p>] is [-inf],
    and the class's [covered] is negative. *)
Theorem report_line_format (root : element) (l : string) :
  In l (out (report root)) ->
  exists p c n pct,
    In p (findall "package" root) /\ get p "name" = Some n /\
    startswith n package_prefix = true /\ In c (findall "class" p) /\
    l = n ++ "/" ++ py_str (get c "sourcefilename") ++ ": " ++ pct ++ "%" /\
    ((exists sign ip d1 d2,
        pct = sign ++ ip ++ "." ++ String d1 (String d2 "") /\
        (sign = "" \/ sign = "-") /\ ip <> "" /\ all_digits ip = true /\
        is_digit d1 = true /\ is_digit d2 = true) \/
     (pct = "-inf" /\
      exists lc cv, find_line_counter c = Some lc /\
                    int_of_attr (get lc "covered") = ret cv /\ (cv < 0)%Z)).
Proof.
  intros H. apply for_out in H. destruct H as [p [Hp Hl]].
  apply package_body_line in Hl. destruct Hl as [n [c [Hn [Hs [Hc Hl]]]]].
  apply class_body_line in Hl.
  destruct Hl as [lc [m [cv [ratio [Hlc [Hm [Hcv [Ht [Hr [Hlt ->]]]]]]]]]].
  exists p, c, n, (format_2f (float_mul_int ratio 100)).
  split; [exact Hp |]. split; [exact Hn |]. split; [exact Hs |]. split; [exact Hc |].
  split; [reflexivity |].
  destruct (float_mul_int ratio 100) as [neg mf ef | neg] eqn:Hf.
  - left. exact (format_2f_finite_shape neg mf ef).
  - right. destruct (line_percentage_infinite cv (m + cv) ratio neg Ht Hr Hf Hlt) as [-> Hneg].
    split; [reflexivity |]. exists lc, cv. auto.
Qed.

(** ** C9: the exporter's exclusion *)

Lemma suffixes_nil (s : list ascii) : In [] (suffixes s).
Proof. induction s as [| x s IH]; simpl; auto. Qed.

Lemma glob_match_lits (w s : list ascii) :
  glob_match (map Lit w) s = true <-> s = w.
Proof.
  revert s. induction w as [| a w IH]; intros [| x s]; simpl;
    try (split; congruence).
  rewrite andb_true_iff, IH, Ascii.eqb_eq. split.
  - intros [-> ->]. reflexivity.
  - intros H. injection H as -> ->. auto.
Qed.

(** A pattern with neither [*] nor [?] matches exactly the name it spells. *)
Lemma fnmatch_literal (n w : string) :
  compile_glob w = map Lit (list_ascii_of_string w) ->
  fnmatch n w = String.eqb n w.
Proof.
  intros Hw. unfold fnmatch. rewrite Hw.
  destruct (String.eqb n w) eqn:E.
  - apply String.eqb_eq in E. subst. apply glob_match_lits. reflexivity.
  - destruct (glob_match _ _) eqn:G; [| reflexivity].
    apply glob_match_lits in G.
    rewrite <- (string_of_list_ascii_of_string n), G,
      string_of_list_ascii_of_string, String.eqb_refl in E.
    discriminate.
Qed.

Lemma fnmatch_dot_star (n : string) : fnmatch n ".*" = String.prefix "." n.
Proof.
  unfold fnmatch. change (compile_glob ".*") with [Lit "."; Star].
  destruct n as [| a n]; [reflexivity |].
  assert (Hs : existsb (glob_match []) (suffixes (list_ascii_of_string n)) = true).
  { apply existsb_exists. exists []. split; [apply suffixes_nil | reflexivity]. }
  change (glob_match [Lit "."; Star] (list_ascii_of_string (String a n)))
    with (Ascii.eqb "." a && existsb (glob_match []) (suffixes (list_ascii_of_string n))).
  change (String.prefix "." (String a n))
    with (if Ascii.ascii_dec "." a then String.prefix "" n else false).
  assert (He : String.prefix "" n = true) by (destruct n; reflexivity).
  rewrite Hs, andb_true_r, He.
  destruct (Ascii.eqb "." a) eqn:E, (Ascii.ascii_dec "." a) as [Heq | Hne];
    try reflexivity.
  - apply Ascii.eqb_eq in E. contradiction.
  - subst. rewrite Ascii.eqb_refl in E. discriminate.
Qed.

Lemma export_patterns_match (n : string) :
  existsb (fnmatch n) export_patterns = excluded_name n.
Proof.
  unfold export_patterns, excluded_name. cbn [existsb].
  rewrite fnmatch_dot_star, !fnmatch_literal by reflexivity.
  rewrite orb_false_r, !orb_assoc. reflexivity.
Qed.

(** [name in ignored_names] for a name of the directory being copied. *)
Lemma ignored_mem (x : string) (names : list string) (f : string -> bool) :
  In x names -> existsb (String.eqb x) (filter f names) = f x.
Proof.
  intros Hx. destruct (f x) eqn:Fx.
  - apply existsb_exists. exists x. split.
    + apply filter_In. auto.
    + apply String.eqb_refl.
  - destruct (existsb _ _) eqn:E; [| reflexivity].
    apply existsb_exists in E. destruct E as [y [Hy Hxy]].
    apply filter_In in Hy. destruct Hy as [_ Hy].
    apply String.eqb_eq in Hxy. subst. congruence.
Qed.

Section EntryInduction.
Variable P : entry -> Prop.
Hypothesis HFile : forall n, P (File n).
Hypothesis HDir : forall n cs, Forall P cs -> P (Dir n cs).

Fixpoint entry_ind2 (e : entry) : P e :=
  match e with
  | File n => HFile n
  | Dir n cs =>
      HDir n cs ((fix go (l : list entry) : Forall P l :=
                    match l with
                    | [] => Forall_nil P
                    | c :: l' => Forall_cons c (entry_ind2 c) (go l')
                    end) cs)
  end.
End EntryInduction.

Definition kept_name (n : string) : Prop := excluded_name n = false.

Lemma entry_paths_head (e : entry) (p : list string) :
  In p (entry_paths e) -> exists q, p = entry_name e :: q.
Proof.
  destruct e as [n | n cs]; simpl.
  - intros [<- | []]. exists []. reflexivity.
  - intros [<- | H]; [exists []; reflexivity |].
    apply in_map_iff in H. destruct H as [q [<- _]]. exists q. reflexivity.
Qed.

Definition export_ignore : list string -> list string := ignore_patterns export_patterns.

(** The paths copied from some entries of a directory whose names are [all]. *)
Lemma copy_kept_paths (all es : list entry) (p : list string) :
  incl es all ->
  Forall (fun e => kept_name (entry_name e) ->
            forall p, In p (entry_paths (copy_entry export_ignore e))
                      <-> In p (entry_paths e) /\ Forall kept_name p) es ->
  In p (tree_paths (copy_kept (copy_entry export_ignore)
                              (export_ignore (map entry_name all)) es))
  <-> In p (tree_paths es) /\ Forall kept_name p.
Proof.
  induction es as [| e es IH]; intros Hincl Hes.
  - simpl. tauto.
  - inversion Hes as [| ? ? He Hes']; subst.
    assert (Hincl' : incl es all) by (intros x Hx; apply Hincl; now right).
    specialize (IH Hincl' Hes').
    unfold export_ignore at 2, ignore_patterns.
    cbn [copy_kept].
    rewrite ignored_mem by (apply in_map, Hincl; now left).
    rewrite export_patterns_match.
    unfold tree_paths in *. cbn [flat_map].
    destruct (excluded_name (entry_name e)) eqn:Ex.
    + rewrite IH, in_app_iff. split; [tauto |].
      intros [[Hp | Hp] Hk]; [| tauto].
      destruct (entry_paths_head e p Hp) as [q ->].
      inversion Hk as [| ? ? Hn _]. unfold kept_name in Hn. congruence.
    + cbn [flat_map]. rewrite !in_app_iff, IH, (He Ex). tauto.
Qed.

Lemma copy_entry_paths (e : entry) :
  kept_name (entry_name e) ->
  forall p, In p (entry_paths (copy_entry export_ignore e))
            <-> In p (entry_paths e) /\ Forall kept_name p.
Proof.
  induction e as [n | n cs IH] using entry_ind2; intros Hn p; simpl in Hn.
  - simpl. split.
    + intros [<- | []]. split; [now left | constructor; [exact Hn | constructor]].
    + tauto.
  - cbn [copy_entry entry_paths]. simpl In.
    rewrite !in_map_iff.
    split.
    + intros [<- | [q [<- Hq]]].
      * split; [now left | constructor; [exact Hn | constructor]].
      * apply (copy_kept_paths cs cs q (incl_refl cs) IH) in Hq.
        destruct Hq as [Hq Hk]. split; [right; exists q; auto | constructor; auto].
    + intros [[<- | [q [<- Hq]]] Hk]; [now left |].
      right. exists q. split; [reflexivity |].
      inversion Hk; subst.
      apply (copy_kept_paths cs cs q (incl_refl cs) IH). auto.
Qed.

Lemma copytree_paths (es : list entry) (p : list string) :
  In p (tree_paths (copytree export_ignore es))
  <-> In p (tree_paths es) /\ Forall kept_name p.
Proof.
  apply copy_kept_paths; [apply incl_refl |].
  apply Forall_forall. intros e _. apply copy_entry_paths.
Qed.

(** C9 (as amended): the ignore function leaves out exactly the names that
    begin with a dot or are [build], [local.properties] or [bin], at every
    depth; an entry reaches the output tree if and only if neither its name
    nor the name of any directory above it is such a name (the contents of a
    left-out directory are left out with it).  A project holding [.git/],
    [build/], [local.properties], [bin/] and [src/Main.kt] exports to
    [src/Main.kt] alone. *)
Theorem export_project_exclusion :
  (forall n, existsb (fnmatch n) export_patterns = excluded_name n) /\
  (forall es p, In p (tree_paths (export_project es))
                <-> In p (tree_paths es) /\ Forall kept_name p) /\
  export_project [Dir ".git" [File "HEAD"]; Dir "build" [File "app.apk"];
                  File "local.properties"; Dir "bin" [File "tool"];
                  Dir "src" [File "Main.kt"]]
  = [Dir "src" [File "Main.kt"]].
Proof.
  split; [exact export_patterns_match |]. split; [| vm_compute; reflexivity].
  intros es p. unfold export_project. fold export_ignore.
  rewrite copytree_paths, copytree_paths. tauto.
Qed.

(** C9: an entry whose own name matches no pattern is still not copied when
    it lies in a left-out directory: [build/out.txt] does not reach the output
    tree. *)
Lemma export_drops_contents_of_excluded_dir :
  existsb (fnmatch "out.txt") export_patterns = false /\
  In ["build"; "out.txt"] (tree_paths [Dir "build" [File "out.txt"]]) /\
  export_project [Dir "build" [File "out.txt"]] = [] /\
  ~ In ["build"; "out.txt"] (tree_paths (export_project [Dir "build" [File "out.txt"]])).
Proof.
  split; [vm_compute; reflexivity |]. split; [simpl; auto |].
  split; [vm_compute; reflexivity |].
  vm_compute. tauto.
Qed.

(** ** Concrete reports *)

Definition cov_class (sf missed covered : string) : element :=
  Element "class" [("name", "X"); ("sourcefilename", sf)]
    [Element "counter" [("type", "INSTRUCTION"); ("missed", "3"); ("covered", "1")] [];
     Element "counter" [("type", "LINE"); ("missed", missed); ("covered", covered)] []].

Definition uncounted_class : element :=
  Element "class" [("name", "Y"); ("sourcefilename", "Y.kt")]
    [Element "counter" [("type", "BRANCH"); ("missed", "1"); ("covered", "0")] []].

Definition cov_package (name : string) (cs : list element) : element :=
  Element "package" [("name", name)] cs.

Definition nameless_package : element := Element "package" [] [cov_class "A.kt" "1" "0"].

Definition dc_x : string := "com/android/designcompose/x".

(** The scenarios of the spec. *)
Example report_scenarios :
  out (report (Element "report" [] [cov_package dc_x [cov_class "File.kt" "10" "10"]])) = [] /\
  out (report (Element "report" [] [cov_package dc_x [cov_class "File.kt" "11" "9"]]))
    = ["com/android/designcompose/x/File.kt: 45.00%"] /\
  out (report (Element "report" [] [cov_package "com/other/x" [cov_class "File.kt" "7" "0"]])) = [] /\
  out (report (Element "report" [] [cov_package dc_x [uncounted_class]])) = [] /\
  out (report (Element "report" [] [cov_package dc_x [cov_class "File.kt" "0" "0"]])) = [] /\
  out (report (Element "report" [] [cov_package dc_x [cov_class "Bar.kt" "5" "3"]]))
    = ["com/android/designcompose/x/Bar.kt: 37.50%"].
Proof. vm_compute. repeat split. Qed.

(** ** Witnesses and counterexamples *)

Lemma report_emits_iff_below_threshold_witness :
  (exists rest, out (report (Element "report" [] [cov_package dc_x [cov_class "File.kt" "11" "9"]]))
                = (out (for_ [] package_body) ++ out (for_ [] (class_body dc_x))
                   ++ out (class_body dc_x (cov_class "File.kt" "11" "9")) ++ rest)%list) /\
  (forall ratio, py_truediv 9 (11 + 9) = ret ratio ->
   (float_lt_int (float_mul_int ratio 100) 50 = true ->
    class_body dc_x (cov_class "File.kt" "11" "9")
    = emit (dc_x ++ "/" ++ py_str (get (cov_class "File.kt" "11" "9") "sourcefilename") ++ ": "
            ++ format_2f (float_mul_int ratio 100) ++ "%")) /\
   (float_lt_int (float_mul_int ratio 100) 50 = false ->
    class_body dc_x (cov_class "File.kt" "11" "9") = ret tt)) /\
  (py_truediv 9 (11 + 9) = raise OverflowError ->
   class_body dc_x (cov_class "File.kt" "11" "9") = raise OverflowError /\ (11 < 0 \/ 9 < 0)%Z).
Proof.
  apply (report_emits_iff_below_threshold
           (Element "report" [] [cov_package dc_x [cov_class "File.kt" "11" "9"]])
           (cov_package dc_x [cov_class "File.kt" "11" "9"])
           (cov_class "File.kt" "11" "9")
           (Element "counter" [("type", "LINE"); ("missed", "11"); ("covered", "9")] [])
           [] [] [] [] dc_x "11" "9" 11 9); vm_compute; reflexivity.
Defined.

(** C1: the rule is about the double [covered / total * 100], not the exact
    ratio.  With [missed = 2^53 + 1] and [covered = 2^53] the exact percentage
    is below 50, but the quotient rounds to 0.5 and the class is not listed.
    Also, a class of a matching package at 0% coverage prints nothing when an
    earlier package has no name: the run stops before reaching it. *)
Lemma report_threshold_counterexample :
  (9007199254740992 * 100 < 50 * (9007199254740993 + 9007199254740992))%Z /\
  out (report (Element "report" []
                 [cov_package dc_x [cov_class "Big.kt" "9007199254740993" "9007199254740992"]]))
  = [] /\
  In (cov_package dc_x [cov_class "File.kt" "10" "0"])
     (findall "package" (Element "report" [] [nameless_package;
                                              cov_package dc_x [cov_class "File.kt" "10" "0"]])) /\
  startswith dc_x package_prefix = true /\
  class_body dc_x (cov_class "File.kt" "10" "0")
    = emit "com/android/designcompose/x/File.kt: 0.00%" /\
  out (report (Element "report" [] [nameless_package;
                                    cov_package dc_x [cov_class "File.kt" "10" "0"]])) = [].
Proof. split; [lia |]. vm_compute. repeat split; auto. Qed.

Lemma report_ignores_foreign_package_witness :
  report (Element "report" [] ([] ++ cov_package "com/other/x" [cov_class "File.kt" "7" "0"] :: []))
  = report (Element "report" [] ([] ++ [])).
Proof.
  apply (report_ignores_foreign_package "report" [] [] []
           (cov_package "com/other/x" [cov_class "File.kt" "7" "0"]) "com/other/x");
    reflexivity.
Defined.

Lemma report_skips_class_without_line_counter_witness :
  report (Element "report" [] ([] ++ Element "package" [("name", dc_x)]
                                  ([] ++ uncounted_class :: [cov_class "B.kt" "5" "3"]) :: []))
  = report (Element "report" [] ([] ++ Element "package" [("name", dc_x)]
                                  ([] ++ [cov_class "B.kt" "5" "3"]) :: [])).
Proof.
  apply (report_skips_class_without_line_counter "report" "package" [] [("name", dc_x)]
           [] [] [] [cov_class "B.kt" "5" "3"] uncounted_class).
  reflexivity.
Defined.

Lemma report_line_format_witness :
  exists p c n pct,
    In p (findall "package" (Element "report" [] [cov_package dc_x [cov_class "B.kt" "5" "3"]])) /\
    get p "name" = Some n /\ startswith n package_prefix = true /\
    In c (findall "class" p) /\
    "com/android/designcompose/x/B.kt: 37.50%"
      = n ++ "/" ++ py_str (get c "sourcefilename") ++ ": " ++ pct ++ "%" /\
    ((exists sign ip d1 d2,
        pct = sign ++ ip ++ "." ++ String d1 (String d2 "") /\
        (sign = "" \/ sign = "-") /\ ip <> "" /\ all_digits ip = true /\
        is_digit d1 = true /\ is_digit d2 = true) \/
     (pct = "-inf" /\
      exists lc cv, find_line_counter c = Some lc /\
                    int_of_attr (get lc "covered") = ret cv /\ (cv < 0)%Z)).
Proof.
  apply (report_line_format
           (Element "report" [] [cov_package dc_x [cov_class "B.kt" "5" "3"]])
           "com/android/designcompose/x/B.kt: 37.50%").
  vm_compute. left. reflexivity.
Defined.

(** C5: [covered = -10^307] and [missed = 10^307 + 1] give a total of 1 and a
    finite quotient [-1e307], whose product by 100 overflows to minus
    infinity: the line printed ends in [-inf%], with no decimal point. *)
Lemma report_line_format_counterexample :
  out (report (Element "report" []
                 [cov_package dc_x [cov_class "Neg.kt" (dec_string (10 ^ 307 + 1))
                                      ("-" ++ dec_string (10 ^ 307))]]))
  = ["com/android/designcompose/x/Neg.kt: -inf%"].
Proof. vm_compute. reflexivity. Qed.


Lemma coverage_percentage_in_range_witness :
  exists ratio, py_truediv 9 (11 + 9) = ret ratio /\
                (exists mant e, float_mul_int ratio 100 = Fin false mant e) /\
                float_compare_int (float_mul_int ratio 100) 0 <> Lt /\
                float_compare_int (float_mul_int ratio 100) 100 <> Gt.
Proof. apply (coverage_percentage_in_range 11 9); lia. Defined.

Lemma report_aborts_on_nameless_package_witness :
  report (Element "report" [] ([cov_package dc_x [cov_class "File.kt" "11" "9"]]
                               ++ nameless_package :: [cov_package dc_x [cov_class "B.kt" "5" "3"]]))
  = (out (report (Element "report" [] [cov_package dc_x [cov_class "File.kt" "11" "9"]])),
     inl AttributeError).
Proof.
  apply (report_aborts_on_nameless_package "report" []
           [cov_package dc_x [cov_class "File.kt" "11" "9"]]
           [cov_package dc_x [cov_class "B.kt" "5" "3"]] nameless_package);
    vm_compute; reflexivity.
Defined.

(** ** Further properties of the reporter *)

(** Every line the report prints names a class of a matching package whose
    LINE counter has integer counts and a positive total, whose quotient
    [covered / total] fits a double and whose double percentage is below 50,
    and shows that percentage: no class at or above 50% is ever listed. *)
Theorem report_lines_below_threshold (root : element) (l : string) :
  In l (out (report root)) ->
  exists p n c lc m cv ratio,
    In p (findall "package" root) /\ get p "name" = Some n /\
    startswith n package_prefix = true /\ In c (findall "class" p) /\
    find_line_counter c = Some lc /\
    int_of_attr (get lc "missed") = ret m /\ int_of_attr (get lc "covered") = ret cv /\
    (0 < m + cv)%Z /\ py_truediv cv (m + cv) = ret ratio /\
    float_lt_int (float_mul_int ratio 100) 50 = true /\
    l = n ++ "/" ++ py_str (get c "sourcefilename") ++ ": "
        ++ format_2f (float_mul_int ratio 100) ++ "%".
Proof.
  intros H. apply for_out in H. destruct H as [p [Hp Hl]].
  apply package_body_line in Hl. destruct Hl as [n [c [Hn [Hs [Hc Hl]]]]].
  apply class_body_line in Hl.
  destruct Hl as [lc [m [cv [ratio [Hlc [Hm [Hcv [Ht [Hr [Hlt Hl]]]]]]]]]].
  exists p, n, c, lc, m, cv, ratio. repeat split; auto.
Qed.

Lemma report_lines_below_threshold_witness :
  exists p n c lc m cv ratio,
    In p (findall "package" (Element "report" [] [cov_package dc_x [cov_class "C.kt" "137" "23"]])) /\
    get p "name" = Some n /\
    startswith n package_prefix = true /\ In c (findall "class" p) /\
    find_line_counter c = Some lc /\
    int_of_attr (get lc "missed") = ret m /\ int_of_attr (get lc "covered") = ret cv /\
    (0 < m + cv)%Z /\ py_truediv cv (m + cv) = ret ratio /\
    float_lt_int (float_mul_int ratio 100) 50 = true /\
    "com/android/designcompose/x/C.kt: 14.37%"
      = n ++ "/" ++ py_str (get c "sourcefilename") ++ ": "
          ++ format_2f (float_mul_int ratio 100) ++ "%".
Proof.
  apply (report_lines_below_threshold
           (Element "report" [] [cov_package dc_x [cov_class "C.kt" "137" "23"]])
           "com/android/designcompose/x/C.kt: 14.37%").
  vm_compute. left. reflexivity.
Defined.

Lemma length_flat_map_le {A B C} (f : A -> list B) (g : A -> list C) (xs : list A) :
  (forall x, In x xs -> (List.length (f x) <= List.length (g x))%nat) ->
  (List.length (flat_map f xs) <= List.length (flat_map g xs))%nat.
Proof.
  induction xs as [| x xs IH]; intros H; simpl; [lia |].
  rewrite !length_app.
  assert (List.length (flat_map f xs) <= List.length (flat_map g xs))%nat
    by (apply IH; intros y Hy; apply H; now right).
  specialize (H x (or_introl eq_refl)). lia.
Qed.

(** The report prints at most as many lines as there are class elements in
    the packages whose name starts with the prefix. *)
Theorem report_line_count_bound (root : element) :
  (List.length (out (report root))
   <= List.length (flat_map (fun p =>
                               match get p "name" with
                               | Some n => if startswith n package_prefix
                                           then findall "class" p else []
                               | None => []
                               end) (findall "package" root)))%nat.
Proof.
  destruct (report_follows_document_order root) as [_ [[rest Hr] _]].
  apply (f_equal (@List.length string)) in Hr. rewrite length_app in Hr.
  enough (List.length (document_lines root)
          <= List.length (flat_map (fun p =>
                               match get p "name" with
                               | Some n => if startswith n package_prefix
                                           then findall "class" p else []
                               | None => []
                               end) (findall "package" root)))%nat by lia.
  unfold document_lines. apply length_flat_map_le. intros p _.
  destruct (get p "name") as [n |]; [| simpl; lia].
  destruct (startswith n package_prefix); [| simpl; lia].
  induction (findall "class" p) as [| c cs IH]; simpl; [lia |].
  rewrite length_app. pose proof (class_body_at_most_one_line n c). lia.
Qed.

Lemma find_app {A} (f : A -> bool) (l1 l2 : list A) :
  find f (l1 ++ l2) = match find f l1 with Some x => Some x | None => find f l2 end.
Proof. induction l1 as [| x l1 IH]; simpl; [reflexivity | destruct (f x); auto]. Qed.

(** Only the first LINE counter of a class is read: whatever children follow
    it (further LINE counters included) leave the class's outcome unchanged. *)
Theorem class_body_first_line_counter
    (n t : string) (a : list (string * string)) (cs extra : list element) (lc : element) :
  find_line_counter (Element t a cs) = Some lc ->
  class_body n (Element t a (cs ++ extra)) = class_body n (Element t a cs).
Proof.
  intros H. unfold class_body.
  assert (Hf : find_line_counter (Element t a (cs ++ extra)) = Some lc).
  { unfold find_line_counter in *. simpl children in *. rewrite find_app, H. reflexivity. }
  rewrite Hf, H. reflexivity.
Qed.

Lemma class_body_first_line_counter_witness :
  class_body dc_x (Element "class" [("sourcefilename", "F.kt")]
                    ([Element "counter" [("type", "LINE"); ("missed", "9"); ("covered", "1")] []]
                     ++ [Element "counter" [("type", "LINE"); ("missed", "0"); ("covered", "9")] []]))
  = class_body dc_x (Element "class" [("sourcefilename", "F.kt")]
                    [Element "counter" [("type", "LINE"); ("missed", "9"); ("covered", "1")] []]).
Proof.
  apply (class_body_first_line_counter dc_x "class" [("sourcefilename", "F.kt")]
           [Element "counter" [("type", "LINE"); ("missed", "9"); ("covered", "1")] []]
           [Element "counter" [("type", "LINE"); ("missed", "0"); ("covered", "9")] []]
           (Element "counter" [("type", "LINE"); ("missed", "9"); ("covered", "1")] [])).
  reflexivity.
Defined.

Lemma format_2f_minus (x : pyfloat) :
  (exists m e, x = Fin true m e) \/ x = Inf true -> exists rest, format_2f x = "-" ++ rest.
Proof.
  intros [[m [e ->]] | ->]; [| eexists; reflexivity].
  unfold format_2f. destruct (dyadic m e). eexists. reflexivity.
Qed.

(** The counters are not checked for sign: a LINE counter with a negative
    [covered] and a positive total is always reported, with a percentage
    printed after a minus sign, unless the quotient [covered / total] is too
    large for a double, in which case the run raises [OverflowError]. *)
Theorem class_body_negative_covered
    (n : string) (c lc : element) (sm sc : string) (m cv : Z) :
  find_line_counter c = Some lc ->
  get lc "missed" = Some sm -> py_int sm = Some m ->
  get lc "covered" = Some sc -> py_int sc = Some cv ->
  (cv < 0)%Z -> (0 < m + cv)%Z ->
  ((- cv < overflow_bound * (m + cv))%Z ->
   exists rest, class_body n c
                = emit (n ++ "/" ++ py_str (get c "sourcefilename") ++ ": -" ++ rest ++ "%")) /\
  ((overflow_bound * (m + cv) <= - cv)%Z -> class_body n c = raise OverflowError).
Proof.
  intros Hc Hm Hpm Hcv Hpc Hneg Ht.
  rewrite (class_body_counted n c lc sm sc m cv Hc Hm Hpm Hcv Hpc Ht). cbv zeta.
  pose proof (py_truediv_overflow cv (m + cv) Ht) as Ho.
  rewrite (Z.abs_neq cv) in Ho by lia.
  split.
  - intros Hlt.
    destruct (py_truediv_cases cv (m + cv) ltac:(lia)) as [[x Hx] | Hx];
      [| apply Ho in Hx; lia].
    rewrite Hx, bind_ret_l.
    destruct (py_truediv_sign cv (m + cv) x Ht Hx) as [mr [er [-> Hmr]]].
    rewrite (proj2 (Z.ltb_lt cv 0) Hneg).
    assert (Hf : (exists m' e', float_mul_int (Fin true mr er) 100 = Fin true m' e' /\ (0 <= m')%Z)
                 \/ float_mul_int (Fin true mr er) 100 = Inf true)
      by (apply float_mul_int_sign; lia).
    assert (Hl : float_lt_int (float_mul_int (Fin true mr er) 100) 50 = true).
    { destruct Hf as [[m' [e' [H Hm']]] | H]; rewrite H; [| reflexivity].
      apply float_lt_int_neg; lia. }
    rewrite Hl.
    destruct (format_2f_minus (float_mul_int (Fin true mr er) 100)) as [rest Hr].
    { destruct Hf as [[m' [e' [H _]]] | H]; [left; eauto | right; exact H]. }
    rewrite Hr. exists rest. reflexivity.
  - intros Hge. apply Ho in Hge. rewrite Hge. reflexivity.
Qed.

Lemma class_body_negative_covered_witness :
  ((- (-2) < overflow_bound * (7 + -2))%Z ->
   exists rest, class_body dc_x (cov_class "N.kt" "7" "-2")
                = emit (dc_x ++ "/" ++ py_str (get (cov_class "N.kt" "7" "-2") "sourcefilename")
                        ++ ": -" ++ rest ++ "%")) /\
  ((overflow_bound * (7 + -2) <= - (-2))%Z ->
   class_body dc_x (cov_class "N.kt" "7" "-2") = raise OverflowError).
Proof.
  apply (class_body_negative_covered dc_x (cov_class "N.kt" "7" "-2")
           (Element "counter" [("type", "LINE"); ("missed", "7"); ("covered", "-2")] [])
           "7" "-2" 7 (-2)); try reflexivity; lia.
Defined.

(** A class none of whose counted lines is covered ([covered] is 0 and
    [missed] positive) is always reported, at [0.00%]. *)
Theorem class_body_zero_covered
    (n : string) (c lc : element) (sm sc : string) (m : Z) :
  find_line_counter c = Some lc ->
  get lc "missed" = Some sm -> py_int sm = Some m ->
  get lc "covered" = Some sc -> py_int sc = Some 0%Z ->
  (0 < m)%Z ->
  class_body n c = emit (n ++ "/" ++ py_str (get c "sourcefilename") ++ ": 0.00%").
Proof.
  intros Hc Hm Hpm Hcv Hpc Ht.
  rewrite (class_body_counted n c lc sm sc m 0 Hc Hm Hpm Hcv Hpc) by lia.
  rewrite Z.add_0_r. unfold py_truediv.
  rewrite (proj2 (Z.eqb_neq m 0)), (proj2 (Z.ltb_ge m 0)) by lia.
  reflexivity.
Qed.

Lemma class_body_zero_covered_witness :
  class_body dc_x (cov_class "Z.kt" "12" "0")
  = emit (dc_x ++ "/" ++ py_str (get (cov_class "Z.kt" "12" "0") "sourcefilename") ++ ": 0.00%").
Proof.
  apply (class_body_zero_covered dc_x (cov_class "Z.kt" "12" "0")
           (Element "counter" [("type", "LINE"); ("missed", "12"); ("covered", "0")] [])
           "12" "0" 12); try reflexivity; lia.
Defined.

(** ** [int()] reads decimal numerals back *)

Lemma list_ascii_of_string_app (a b : string) :
  list_ascii_of_string (a ++ b) = (list_ascii_of_string a ++ list_ascii_of_string b)%list.
Proof. induction a as [| x a IH]; simpl; [reflexivity | rewrite IH; reflexivity]. Qed.

Lemma all_digits_forall (s : string) :
  all_digits s = forallb is_digit (list_ascii_of_string s).
Proof. induction s as [| x s IH]; simpl; [reflexivity | rewrite IH; reflexivity]. Qed.

Lemma digit_value_digit_char (d : Z) :
  (0 <= d <= 9)%Z -> digit_value (digit_char d) = Some d.
Proof.
  intros Hd. unfold digit_value, digit_char.
  rewrite nat_ascii_embedding by lia.
  rewrite (proj2 (Nat.leb_le 48 _)) by lia. rewrite (proj2 (Nat.leb_le _ 57)) by lia.
  simpl. f_equal. lia.
Qed.

Lemma digit_value_of_digit (c : ascii) :
  is_digit c = true -> exists d, digit_value c = Some d.
Proof.
  unfold is_digit, digit_value. intros H. rewrite H. eexists. reflexivity.
Qed.

Lemma digits_value_snoc (l : list ascii) (c : ascii) (d acc : Z) :
  forallb is_digit l = true -> digit_value c = Some d ->
  digits_value acc (l ++ [c])%list
  = option_map (fun v => 10 * v + d)%Z (digits_value acc l).
Proof.
  revert acc. induction l as [| x l IH]; intros acc Hl Hc; simpl.
  - rewrite Hc. reflexivity.
  - apply andb_prop in Hl. destruct Hl as [Hx Hl].
    destruct (digit_value_of_digit x Hx) as [dx Hdx]. rewrite Hdx.
    apply IH; assumption.
Qed.

Lemma digit_count_all (l : list ascii) :
  forallb is_digit l = true -> digit_count l = List.length l.
Proof.
  unfold digit_count. induction l as [| c l IH]; intros Hl; [reflexivity |].
  cbn [forallb] in Hl. apply andb_prop in Hl. destruct Hl as [Hc Hl].
  destruct (digit_value_of_digit c Hc) as [d Hd].
  cbn [filter]. rewrite Hd. cbn [List.length]. rewrite IH by exact Hl. reflexivity.
Qed.

(** On a run of digits, [int()] is the decimal value, up to 4300 digits. *)
Lemma unsigned_value_all_digits (l : list ascii) :
  forallb is_digit l = true -> l <> [] ->
  unsigned_value l
  = if (max_str_digits <? List.length l)%nat then None else digits_value 0 l.
Proof.
  intros Hl Hne. unfold unsigned_value. rewrite digit_count_all by exact Hl.
  destruct (max_str_digits <? List.length l)%nat; [reflexivity |].
  destruct l as [| c l]; [contradiction |].
  cbn [forallb] in Hl. apply andb_prop in Hl. destruct Hl as [Hc _].
  destruct (digit_value_of_digit c Hc) as [d Hd].
  cbn [digits_value]. rewrite Hd. reflexivity.
Qed.

Lemma dec_digits_value (fuel : nat) (n : Z) :
  (0 <= n < 10 ^ Z.of_nat (S fuel))%Z ->
  digits_value 0 (list_ascii_of_string (dec_digits fuel n)) = Some n.
Proof.
  revert n. induction fuel as [| f IH]; intros n Hn; cbn [dec_digits];
    pose proof (Z.mod_pos_bound n 10) as Hmod; pose proof (Z.div_mod n 10) as Hdm.
  - destruct (Z.eqb (n / 10) 0) eqn:E.
    + apply Z.eqb_eq in E. cbn [list_ascii_of_string digits_value].
      rewrite digit_value_digit_char by lia.
      cbn [digits_value]. f_equal. lia.
    + apply Z.eqb_neq in E. exfalso. apply E. apply Z.div_small.
      change (10 ^ Z.of_nat 1)%Z with 10%Z in Hn. lia.
  - destruct (Z.eqb (n / 10) 0) eqn:E.
    + apply Z.eqb_eq in E. cbn [list_ascii_of_string digits_value].
      rewrite digit_value_digit_char by lia.
      cbn [digits_value]. f_equal. lia.
    + destruct (dec_digits_shape f (n / 10)) as [Hne Hd].
      rewrite list_ascii_of_string_app.
      change (list_ascii_of_string (String (digit_char (n mod 10)) ""))
        with [digit_char (n mod 10)].
      rewrite all_digits_forall in Hd.
      rewrite (digits_value_snoc _ _ (n mod 10));
        [| exact Hd | apply digit_value_digit_char; lia].
      rewrite IH.
      * cbn [option_map]. f_equal. lia.
      * split; [apply Z.div_pos; lia |].
        apply Z.div_lt_upper_bound; [lia |].
        rewrite Nat2Z.inj_succ, Z.pow_succ_r in Hn by lia. lia.
Qed.

(** A numeral of [k] digits stands for a number in [[10^(k-1), 10^k)] (or 0). *)
Lemma dec_digits_length (fuel : nat) (n k : Z) :
  (0 <= n < 10 ^ Z.of_nat (S fuel))%Z ->
  k = Z.of_nat (List.length (list_ascii_of_string (dec_digits fuel n))) ->
  (10 ^ (k - 1) <= Z.max 1 n < 10 ^ k)%Z.
Proof.
  revert n k. induction fuel as [| f IH]; intros n k Hn Hk; cbn [dec_digits] in Hk;
    pose proof (Z.mod_pos_bound n 10) as Hmod; pose proof (Z.div_mod n 10) as Hdm.
  - destruct (Z.eqb_spec (n / 10) 0) as [E | E].
    + subst k. change (10 ^ (1 - 1) <= Z.max 1 n < 10 ^ 1)%Z. simpl. lia.
    + exfalso. apply E, Z.div_small. change (10 ^ Z.of_nat 1)%Z with 10%Z in Hn. lia.
  - destruct (Z.eqb_spec (n / 10) 0) as [E | E].
    + subst k. change (10 ^ (1 - 1) <= Z.max 1 n < 10 ^ 1)%Z. simpl. lia.
    + rewrite list_ascii_of_string_app, length_app, Nat2Z.inj_add in Hk.
      change (Z.of_nat (List.length (list_ascii_of_string (String (digit_char (n mod 10)) ""))))
        with 1%Z in Hk.
      assert (Hq : (0 <= n / 10 < 10 ^ Z.of_nat (S f))%Z).
      { split; [apply Z.div_pos; lia |].
        apply Z.div_lt_upper_bound; [lia |].
        rewrite Nat2Z.inj_succ, Z.pow_succ_r in Hn by lia. lia. }
      set (k' := Z.of_nat (List.length (list_ascii_of_string (dec_digits f (n / 10))))) in Hk.
      specialize (IH (n / 10) k' Hq eq_refl).
      destruct (dec_digits_shape f (n / 10)) as [Hne _].
      assert (Hk' : (1 <= k')%Z).
      { unfold k'. destruct (dec_digits f (n / 10)); [contradiction | simpl; lia]. }
      assert (Hq1 : (1 <= n / 10)%Z) by (pose proof (Z.div_pos n 10); lia).
      rewrite (Z.max_r 1 (n / 10)) in IH by lia.
      rewrite (Z.max_r 1 n) by lia.
      subst k. replace (k' + 1 - 1)%Z with k' by lia.
      assert (E1 : (10 ^ k' = 10 * 10 ^ (k' - 1))%Z)
        by (rewrite <- Z.pow_succ_r by lia; f_equal; lia).
      rewrite Z.pow_add_r, Z.pow_1_r by lia. lia.
Qed.

Lemma dec_string_fuel (n : Z) :
  (0 <= n)%Z -> (n < 10 ^ Z.of_nat (S (S (Z.to_nat (Z.log2 n)))))%Z.
Proof.
  intros Hn. rewrite !Nat2Z.inj_succ, Z2Nat.id by apply Z.log2_nonneg.
  destruct (Z.eq_dec n 0) as [-> | Hn0]; [simpl; lia |].
  destruct (Z.log2_spec n) as [_ H]; [lia |].
  assert (2 ^ Z.succ (Z.log2 n) <= 10 ^ Z.succ (Z.log2 n))%Z
    by (apply Z.pow_le_mono_l; lia).
  assert (10 ^ Z.succ (Z.log2 n) <= 10 ^ Z.succ (Z.succ (Z.log2 n)))%Z
    by (apply Z.pow_le_mono_r; [lia | pose proof (Z.log2_nonneg n); lia]).
  lia.
Qed.

Lemma is_digit_not_space (c : ascii) : is_digit c = true -> is_py_space c = false.
Proof.
  unfold is_digit, is_py_space. intros H. apply andb_prop in H.
  destruct H as [H1 H2]. apply Nat.leb_le in H1, H2.
  simpl existsb.
  repeat rewrite (proj2 (Nat.eqb_neq _ _)) by lia. reflexivity.
Qed.

Lemma strip_left_digits (l : list ascii) :
  forallb is_digit l = true -> strip_left l = l.
Proof.
  destruct l as [| c l]; [reflexivity |]. simpl. intros H.
  apply andb_prop in H. rewrite is_digit_not_space by apply H. reflexivity.
Qed.

Lemma forallb_rev {A} (f : A -> bool) (l : list A) :
  forallb f (rev l) = forallb f l.
Proof.
  induction l as [| x l IH]; simpl; [reflexivity |].
  rewrite forallb_app, IH. simpl. rewrite andb_true_r, andb_comm. reflexivity.
Qed.

(** [int()] reads back every non-negative integer written in plain decimal
    digits, as the [missed] and [covered] attributes of a report are, as long
    as it has at most 4300 digits (is below [10^4300]); from [10^4300] on it
    fails, and the report raises [ValueError]. *)
Theorem py_int_dec_string (n : Z) :
  (0 <= n)%Z ->
  ((n < 10 ^ 4300)%Z -> py_int (dec_string n) = Some n) /\
  ((10 ^ 4300 <= n)%Z -> py_int (dec_string n) = None).
Proof.
  intros Hn. unfold py_int, dec_string.
  set (s := dec_digits _ n).
  destruct (dec_digits_shape (S (Z.to_nat (Z.log2 n))) n) as [Hne Hd].
  fold s in Hne, Hd. rewrite all_digits_forall in Hd.
  assert (Hb : (0 <= n < 10 ^ Z.of_nat (S (S (Z.to_nat (Z.log2 n)))))%Z)
    by (split; [exact Hn | apply dec_string_fuel, Hn]).
  pose proof (dec_digits_value _ n Hb) as Hv. fold s in Hv.
  pose proof (dec_digits_length _ n _ Hb eq_refl) as Hk. fold s in Hk.
  unfold strip. rewrite (strip_left_digits _ Hd).
  rewrite strip_left_digits by (rewrite forallb_rev; exact Hd).
  rewrite rev_involutive.
  clearbody s.
  destruct (list_ascii_of_string s) as [| c l] eqn:Hl.
  { destruct s; [contradiction | discriminate]. }
  pose proof Hd as Hd'. cbn [forallb] in Hd'. apply andb_prop in Hd'. destruct Hd' as [Hc _].
  destruct (Ascii.eqb c "-") eqn:E1.
  { apply Ascii.eqb_eq in E1. subst. discriminate. }
  destruct (Ascii.eqb c "+") eqn:E2.
  { apply Ascii.eqb_eq in E2. subst. discriminate. }
  rewrite unsigned_value_all_digits by (exact Hd || discriminate).
  assert (H1 : (1 < 10 ^ 4300)%Z) by (apply Z.ltb_lt; vm_compute; reflexivity).
  set (B := (10 ^ 4300)%Z) in *.
  set (k := Z.of_nat (List.length (c :: l))) in Hk.
  unfold max_str_digits.
  split; intros H.
  - destruct (Nat.ltb_spec 4300 (List.length (c :: l))) as [Hlt | Hle]; [exfalso | exact Hv].
    assert (HB : (B <= 10 ^ (k - 1))%Z) by (apply Z.pow_le_mono_r; unfold k; lia).
    lia.
  - assert (Hlt : (B < 10 ^ k)%Z) by lia.
    apply Z.pow_lt_mono_r_iff in Hlt; [| lia | unfold k; lia].
    rewrite (proj2 (Nat.ltb_lt _ _)) by (unfold k in Hlt; lia). reflexivity.
Qed.

Lemma py_int_dec_string_witness :
  ((4096 < 10 ^ 4300)%Z -> py_int (dec_string 4096) = Some 4096%Z) /\
  ((10 ^ 4300 <= 4096)%Z -> py_int (dec_string 4096) = None).
Proof. apply py_int_dec_string. lia. Defined.

(** ** Further properties of the exporter *)

Lemma copy_kept_prune (all es : list entry) :
  incl es all ->
  Forall (fun e => copy_entry export_ignore e = prune e) es ->
  copy_kept (copy_entry export_ignore) (export_ignore (map entry_name all)) es
  = prune_kept prune es.
Proof.
  induction es as [| e es IH]; intros Hincl Hes; [reflexivity |].
  inversion Hes as [| ? ? He Hes']; subst.
  cbn [copy_kept prune_kept]. unfold export_ignore at 1, ignore_patterns.
  rewrite ignored_mem by (apply in_map, Hincl; now left).
  rewrite export_patterns_match.
  rewrite IH by (auto; intros x Hx; apply Hincl; now right).
  rewrite He. reflexivity.
Qed.

Lemma copy_entry_prune (e : entry) : copy_entry export_ignore e = prune e.
Proof.
  induction e as [n | n cs IH] using entry_ind2; [reflexivity |].
  cbn [copy_entry prune]. f_equal. apply copy_kept_prune; [apply incl_refl | exact IH].
Qed.

Lemma copytree_prune (es : list entry) : copytree export_ignore es = prune_tree es.
Proof.
  unfold copytree, prune_tree. apply copy_kept_prune; [apply incl_refl |].
  apply Forall_forall. intros e _. apply copy_entry_prune.
Qed.

Lemma prune_name (e : entry) : entry_name (prune e) = entry_name e.
Proof. destruct e; reflexivity. Qed.

Lemma prune_kept_idem (cs : list entry) :
  Forall (fun c => prune (prune c) = prune c) cs ->
  prune_kept prune (prune_kept prune cs) = prune_kept prune cs.
Proof.
  induction cs as [| c cs IH]; intros H; [reflexivity |].
  inversion H as [| ? ? Hc Hcs]; subst. cbn [prune_kept].
  destruct (excluded_name (entry_name c)) eqn:E; [auto |].
  cbn [prune_kept]. rewrite prune_name, E, Hc, IH by exact Hcs. reflexivity.
Qed.

Lemma prune_idem (e : entry) : prune (prune e) = prune e.
Proof.
  induction e as [n | n cs IH] using entry_ind2; [reflexivity |].
  cbn [prune]. f_equal. apply prune_kept_idem, IH.
Qed.

Lemma prune_tree_idem (es : list entry) : prune_tree (prune_tree es) = prune_tree es.
Proof.
  apply prune_kept_idem. apply Forall_forall. intros e _. apply prune_idem.
Qed.

(** The exported tree is the project tree with every entry named [.*],
    [build], [local.properties] or [bin] removed, at every level: the other
    entries keep their order and their kind, and directories left empty are
    still exported. *)
Theorem export_project_is_prune (es : list entry) : export_project es = prune_tree es.
Proof.
  unfold export_project. fold export_ignore.
  rewrite !copytree_prune. apply prune_tree_idem.
Qed.

(** The second [copytree] of the script (staging directory to output
    directory) copies the staging tree unchanged: the first one has already
    removed everything the patterns match. *)
Theorem second_copytree_identity (es : list entry) :
  copytree export_ignore (copytree export_ignore es) = copytree export_ignore es.
Proof. rewrite !copytree_prune. apply prune_tree_idem. Qed.

Lemma fs_lookup_cons_some (fs : fs_state) (kv : string * list entry) (p : string) (es : list entry) :
  fs_lookup fs p = Some es -> exists es', fs_lookup (kv :: fs) p = Some es'.
Proof.
  unfold fs_lookup. simpl. intros H.
  destruct (String.eqb (fst kv) p); simpl; eauto.
Qed.

(** Each [copytree] of the script refuses an existing destination, so once a
    run has succeeded, running the script again into the same output directory
    fails with [FileExistsError], whatever staging directory it gets. *)
Theorem export_script_rerun_fails (fs fs1 : fs_state)
    (project_dir out_dir staging staging' : string) :
  export_script fs project_dir out_dir staging = inr fs1 ->
  export_script fs1 project_dir out_dir staging' = inl DestinationExists.
Proof.
  unfold export_script, copytree_fs.
  destruct (fs_lookup fs project_dir) as [es |] eqn:Hp; [| discriminate].
  destruct (fs_exists fs staging) eqn:Hs; [discriminate |].
  set (fs0 := (staging, copytree (ignore_patterns export_patterns) es) :: fs).
  destruct (fs_lookup fs0 staging) as [es0 |] eqn:Hs0; [| discriminate].
  destruct (fs_exists fs0 out_dir) eqn:Ho; [discriminate |].
  intros H. injection H as <-.
  set (fs1 := (out_dir, copytree (ignore_patterns export_patterns) es0) :: fs0).
  destruct (fs_lookup_cons_some fs (staging, copytree (ignore_patterns export_patterns) es)
              project_dir es Hp) as [e0 H0].
  fold fs0 in H0.
  destruct (fs_lookup_cons_some fs0 (out_dir, copytree (ignore_patterns export_patterns) es0)
              project_dir e0 H0) as [e1 H1].
  fold fs1 in H1. rewrite H1.
  destruct (fs_exists fs1 staging') eqn:Hs'; [reflexivity |].
  unfold fs_lookup at 1. simpl. rewrite String.eqb_refl. simpl.
  unfold fs_exists. simpl.
  rewrite (String.eqb_sym staging' out_dir).
  destruct (String.eqb out_dir staging'); [reflexivity |].
  simpl. rewrite String.eqb_refl. reflexivity.
Qed.

Lemma export_script_rerun_fails_witness :
  export_script [("build", [Dir "src" [File "Main.kt"]]);
                 ("tmp/initial", [Dir "src" [File "Main.kt"]]);
                 ("proj", [Dir "src" [File "Main.kt"]; Dir "build" []])]
                "proj" "build" "tmp2/initial"
  = inl DestinationExists.
Proof.
  apply (export_script_rerun_fails [("proj", [Dir "src" [File "Main.kt"]; Dir "build" []])]
           _ "proj" "build" "tmp/initial" "tmp2/initial").
  vm_compute. reflexivity.
Defined.
